(** * to-do-frontend: the task client of [src/App.js] and of the legacy page

    A shallow embedding of the parts of the React component [App]
    (src/App.js) and of the legacy plain-JavaScript page that decide the
    properties stated at the end of the file: the token provider, the
    authorised requests to the task API, the sign-in handler, the task
    filter and the task-id derivation.

    JavaScript values are an inductive type, strings are [string], the
    component's [useState] cells are the fields of a record, and an [async]
    function is a computation in a state-and-exception monad that also
    extends a trace of its interactions with the browser, the identity
    provider and the task API. *)

From Stdlib Require Import List String Ascii Bool ZArith Arith Lia.
From Stdlib Require Import DecimalString.
Import ListNotations.
Local Open Scope string_scope.
#[local] Set Warnings "-register-all".

(** ** JavaScript values *)

(** Values that reach the component: JSON documents, plus [undefined].
    Only the truthiness and the decimal printing of a number are ever
    observed, so numbers are kept at the integers. *)
Inductive JSValue : Type :=
| JUndefined
| JNull
| JBool (b : bool)
| JNum (n : Z)
| JStr (s : string)
| JArr (elems : list JSValue)
| JObj (fields : list (string * JSValue)).

(** A thrown exception: the class name and the [message] of the error. *)
Record JSError : Type := mkError { err_name : string; err_message : string }.

Definition Error (msg : string) : JSError := mkError "Error" msg.
Definition TypeError (msg : string) : JSError := mkError "TypeError" msg.

(** The completion of an expression or call: a value, or a throw. *)
Inductive Completion (A : Type) : Type :=
| Normal (a : A)
| Throw (e : JSError).
Arguments Normal {A} a.
Arguments Throw {A} e.

(** ToBoolean. *)
Definition truthy (v : JSValue) : bool :=
  match v with
  | JUndefined | JNull => false
  | JBool b => b
  | JNum n => negb (n =? 0)%Z
  | JStr s => negb (s =? "")
  | JArr _ | JObj _ => true
  end.

(** [a || b] on values. *)
Definition js_or (a b : JSValue) : JSValue := if truthy a then a else b.

Fixpoint assoc (k : string) (fields : list (string * JSValue)) : option JSValue :=
  match fields with
  | [] => None
  | (k', v) :: rest => if k =? k' then Some v else assoc k rest
  end.

(** [v.name] for a property name that no prototype defines ([Items],
    [Status], [SK]): a throw on [null] and [undefined], the own property of
    an object, [undefined] everywhere else. *)
Definition get_prop (v : JSValue) (name : string) : Completion JSValue :=
  match v with
  | JUndefined =>
      Throw (TypeError ("Cannot read properties of undefined (reading '" ++ name ++ "')"))
  | JNull =>
      Throw (TypeError ("Cannot read properties of null (reading '" ++ name ++ "')"))
  | JObj fields =>
      match assoc name fields with
      | Some x => Normal x
      | None => Normal JUndefined
      end
  | _ => Normal JUndefined
  end.

(** Array.prototype.join, over strings. *)
Fixpoint join (sep : string) (parts : list string) : string :=
  match parts with
  | [] => ""
  | [p] => p
  | p :: rest => p ++ sep ++ join sep rest
  end.

Definition string_of_Z (n : Z) : string :=
  match n with
  | Z0 => "0"
  | Zpos _ => NilEmpty.string_of_uint (N.to_uint (Z.to_N n))
  | Zneg _ => "-" ++ NilEmpty.string_of_uint (N.to_uint (Z.to_N (Z.opp n)))
  end.

(** ToString, as a template literal applies it to an interpolated value.
    Inside an array, [null] and [undefined] print as the empty string. A
    number prints in decimal, as JavaScript prints a safe integer. *)
Fixpoint to_string (v : JSValue) : string :=
  match v with
  | JUndefined => "undefined"
  | JNull => "null"
  | JBool true => "true"
  | JBool false => "false"
  | JNum n => string_of_Z n
  | JStr s => s
  | JArr elems =>
      join ","
        ((fix elems_to_string (l : list JSValue) : list string :=
            match l with
            | [] => []
            | JUndefined :: l' => "" :: elems_to_string l'
            | JNull :: l' => "" :: elems_to_string l'
            | x :: l' => to_string x :: elems_to_string l'
            end) elems)
  | JObj _ => "[object Object]"
  end.

(** ** Strings *)

(** String.prototype.toLowerCase on the ASCII letters; every other
    character is left as it is. *)
Definition lower_char (c : ascii) : ascii :=
  let n := nat_of_ascii c in
  if ((65 <=? n) && (n <=? 90))%nat then ascii_of_nat (n + 32) else c.

Fixpoint toLowerCase (s : string) : string :=
  match s with
  | EmptyString => EmptyString
  | String c s' => String (lower_char c) (toLowerCase s')
  end.

(** White space removed by String.prototype.trim, among the ASCII
    characters: tab, line feed, vertical tab, form feed, carriage return
    and space. *)
Definition is_white (c : ascii) : bool :=
  let n := nat_of_ascii c in
  (((9 <=? n) && (n <=? 13)) || (n =? 32))%nat.

Fixpoint trim_start (s : string) : string :=
  match s with
  | EmptyString => EmptyString
  | String c s' => if is_white c then trim_start s' else s
  end.

Fixpoint trim_end (s : string) : string :=
  match s with
  | EmptyString => EmptyString
  | String c s' =>
      match trim_end s' with
      | EmptyString => if is_white c then EmptyString else String c EmptyString
      | t => String c t
      end
  end.

Definition trim (s : string) : string := trim_end (trim_start s).

(** [s.split(sep)] for a one-character separator: the pieces between the
    occurrences of [sep]; never the empty list. *)
Fixpoint split (sep : ascii) (s : string) : list string :=
  match s with
  | EmptyString => [EmptyString]
  | String c s' =>
      if Ascii.eqb c sep then EmptyString :: split sep s'
      else
        match split sep s' with
        | piece :: pieces => String c piece :: pieces
        | [] => [String c EmptyString]
        end
  end.

(** [arr[i]] on an array of strings: [undefined] out of range. *)
Definition index (pieces : list string) (i : nat) : JSValue :=
  match nth_error pieces i with
  | Some p => JStr p
  | None => JUndefined
  end.

Definition hash : ascii := "#"%char.

(** [getTaskId] (src/App.js): [sk.split('#')[1]]. *)
Definition getTaskId (sk : JSValue) : Completion JSValue :=
  match sk with
  | JStr s => Normal (index (split hash s) 1)
  | JUndefined => Throw (TypeError "Cannot read properties of undefined (reading 'split')")
  | JNull => Throw (TypeError "Cannot read properties of null (reading 'split')")
  | _ => Throw (TypeError "sk.split is not a function")
  end.

(** ** The component's state and its environment *)

(** The value of [getCurrentUser()]. *)
Record User : Type := mkUser { username : string; userId : string }.

(** The value of [fetchAuthSession()]: [tokens] and [tokens.idToken] may
    each be missing; [idToken.toString()] is the encoded token. *)
Record Tokens : Type := mkTokens { idToken : option string }.
Record Session : Type := mkSession { tokens : option Tokens }.

(** The value of [signIn()]: [isSignedIn] and [nextStep.signInStep]. *)
Record SignInOutput : Type :=
  mkSignInOutput { isSignedIn : bool; signInStep : string }.

(** An HTTP request as [fetch] receives it. [body] is the value handed to
    [JSON.stringify]; [method] is GET when the source leaves it out. *)
Record Request : Type := mkRequest {
  method : string;
  url : string;
  headers : list (string * JSValue);
  body : option JSValue
}.

(** An HTTP response: its status and the completion of [response.json()]. *)
Record Response : Type := mkResponse {
  status : Z;
  json : Completion JSValue
}.

(** [response.ok]: the status is in the range 200-299. *)
Definition ok (r : Response) : bool :=
  ((200 <=? status r) && (status r <=? 299))%Z.

(** One interaction of the code with the outside, with its outcome. *)
Inductive Event : Type :=
| preventDefault
| console_log (label : string)
| console_error (label : string) (e : JSError)
| ev_confirm (question : string) (answer : bool)
| ev_fetchAuthSession (forceRefresh : bool) (r : Completion Session)
| ev_fetch (req : Request) (r : Completion Response)
| ev_getCurrentUser (r : Completion User)
| ev_signIn (user_name pass_word : string) (r : Completion SignInOutput)
| ev_currentSession (r : Completion string)
| ev_API (verb path : string) (payload : option JSValue) (r : Completion JSValue).

Definition Trace : Type := list Event.

(** The [useState] cells of [App]. *)
Record AppState : Type := mkState {
  user : option User;
  tasks : JSValue;
  loading : bool;
  error : string;
  email : string;
  password : string;
  isSignUp : bool;
  needsConfirmation : bool;
  confirmationCode : string;
  newTaskDescription : string;
  filter : string
}.

(** The state of the first render. *)
Definition initial_state : AppState :=
  mkState None (JArr []) false "" "" "" false false "" "" "all".

Definition with_user (u : option User) (s : AppState) : AppState :=
  mkState u (tasks s) (loading s) (error s) (email s) (password s) (isSignUp s)
          (needsConfirmation s) (confirmationCode s) (newTaskDescription s) (filter s).
Definition with_tasks (t : JSValue) (s : AppState) : AppState :=
  mkState (user s) t (loading s) (error s) (email s) (password s) (isSignUp s)
          (needsConfirmation s) (confirmationCode s) (newTaskDescription s) (filter s).
Definition with_loading (b : bool) (s : AppState) : AppState :=
  mkState (user s) (tasks s) b (error s) (email s) (password s) (isSignUp s)
          (needsConfirmation s) (confirmationCode s) (newTaskDescription s) (filter s).
Definition with_error (e : string) (s : AppState) : AppState :=
  mkState (user s) (tasks s) (loading s) e (email s) (password s) (isSignUp s)
          (needsConfirmation s) (confirmationCode s) (newTaskDescription s) (filter s).
Definition with_needsConfirmation (b : bool) (s : AppState) : AppState :=
  mkState (user s) (tasks s) (loading s) (error s) (email s) (password s) (isSignUp s)
          b (confirmationCode s) (newTaskDescription s) (filter s).
Definition with_newTaskDescription (d : string) (s : AppState) : AppState :=
  mkState (user s) (tasks s) (loading s) (error s) (email s) (password s) (isSignUp s)
          (needsConfirmation s) (confirmationCode s) d (filter s).
Definition with_filter (f : string) (s : AppState) : AppState :=
  mkState (user s) (tasks s) (loading s) (error s) (email s) (password s) (isSignUp s)
          (needsConfirmation s) (confirmationCode s) (newTaskDescription s) f.

(** What the code cannot decide: the build-time configuration and the
    answers of the identity provider, of the task API and of the user.
    Every answer may depend on all that happened before. *)
Record Env : Type := mkEnv {
  API_ENDPOINT : JSValue;
  fetchAuthSession : Trace -> Completion Session;
  fetch : Trace -> Request -> Completion Response;
  getCurrentUser : Trace -> Completion User;
  signIn : Trace -> string -> string -> Completion SignInOutput;
  window_confirm : Trace -> string -> bool
}.

(** ** Computations *)

(** An [async] function body: it runs on a state and the trace so far and
    completes, normally or by a throw, with the state and trace it leaves.
    What was written before a throw stays written. *)
Definition M (S A : Type) : Type := S * Trace -> Completion A * (S * Trace).

Definition ret {S A} (a : A) : M S A := fun w => (Normal a, w).

Definition bind {S A B} (m : M S A) (k : A -> M S B) : M S B :=
  fun w =>
    match m w with
    | (Normal a, w') => k a w'
    | (Throw e, w') => (Throw e, w')
    end.

Definition throw {S A} (e : JSError) : M S A := fun w => (Throw e, w).

(** [try { m } catch (err) { h err }]. *)
Definition try_catch {S A} (m : M S A) (h : JSError -> M S A) : M S A :=
  fun w =>
    match m w with
    | (Normal a, w') => (Normal a, w')
    | (Throw e, w') => h e w'
    end.

(** [try { m } finally { f }]. *)
Definition finally {S A} (m : M S A) (f : M S unit) : M S A :=
  fun w =>
    match m w with
    | (r, w') =>
        match f w' with
        | (Normal _, w'') => (r, w'')
        | (Throw e, w'') => (Throw e, w'')
        end
    end.

Definition get {S} : M S S := fun w => (Normal (fst w), w).

Definition modify {S} (f : S -> S) : M S unit :=
  fun w => (Normal tt, (f (fst w), snd w)).

(** Record an interaction that has no answer. *)
Definition emit {S} (ev : Event) : M S unit :=
  fun w => (Normal tt, (fst w, (snd w ++ [ev])%list)).

(** Ask the outside: the answer is a function of the trace so far, and the
    interaction is recorded with it. *)
Definition ask {S A} (oracle : Trace -> Completion A)
           (record : Completion A -> Event) : M S A :=
  fun w => let r := oracle (snd w) in (r, (fst w, (snd w ++ [record r])%list)).

Definition ask_bool {S} (oracle : Trace -> bool) (record : bool -> Event) : M S bool :=
  fun w => let b := oracle (snd w) in (Normal b, (fst w, (snd w ++ [record b])%list)).

(** The completion of a pure expression, inside a computation. *)
Definition lift {S A} (c : Completion A) : M S A := fun w => (c, w).

Declare Scope js_scope.
Delimit Scope js_scope with js.
Notation "x <- m ;; k" := (bind m (fun x => k))
  (at level 61, m at next level, right associativity) : js_scope.
Notation "m ;; k" := (bind m (fun _ => k))
  (at level 61, right associativity) : js_scope.
Local Open Scope js_scope.

(** ** The React component [App] (src/App.js) *)

Definition setUser (u : option User) : M AppState unit := modify (with_user u).
Definition setTasks (t : JSValue) : M AppState unit := modify (with_tasks t).
Definition setLoading (b : bool) : M AppState unit := modify (with_loading b).
Definition setError (e : string) : M AppState unit := modify (with_error e).
Definition setNeedsConfirmation (b : bool) : M AppState unit :=
  modify (with_needsConfirmation b).
Definition setNewTaskDescription (d : string) : M AppState unit :=
  modify (with_newTaskDescription d).

(** [tokens?.idToken?.toString()]. *)
Definition idToken_string (s : Session) : JSValue :=
  match tokens s with
  | None => JUndefined
  | Some t =>
      match idToken t with
      | None => JUndefined
      | Some jwt => JStr jwt
      end
  end.

(** [err.message || fallback]. *)
Definition message_or (err : JSError) (fallback : string) : string :=
  if err_message err =? "" then fallback else err_message err.

Section App.

Variable env : Env.

(** [checkUser]. *)
Definition checkUser : M AppState unit :=
  try_catch
    (currentUser <- ask (getCurrentUser env) ev_getCurrentUser ;;
     setUser (Some currentUser))
    (fun _ => setUser None).

(** [getAuthToken]. *)
Definition getAuthToken : M AppState JSValue :=
  try_catch
    (session <- ask (fetchAuthSession env) (ev_fetchAuthSession true) ;;
     ret (idToken_string session))
    (fun err =>
       emit (console_error "Error getting token:" err) ;;
       ret JNull).

(** [await fetch(url, init)]. *)
Definition do_fetch (req : Request) : M AppState Response :=
  ask (fun tr => fetch env tr req) (ev_fetch req).

(** [fetchTasks]. *)
Definition fetchTasks : M AppState unit :=
  setLoading true ;;
  setError "" ;;
  finally
    (try_catch
       (token <- getAuthToken ;;
        response <- do_fetch
          (mkRequest "GET" (to_string (API_ENDPOINT env) ++ "/tasks")
                     [("Authorization", token)] None) ;;
        if negb (ok response) then throw (Error "Failed to fetch tasks")
        else
          data <- lift (json response) ;;
          items <- lift (get_prop data "Items") ;;
          setTasks (js_or items (JArr [])))
       (fun err => setError (err_message err)))
    (setLoading false).

(** [handleSignIn]; [e.preventDefault()] is the only use of the event. *)
Definition handleSignIn (skipPrevent : bool) : M AppState unit :=
  (if negb skipPrevent then emit preventDefault else ret tt) ;;
  form <- get ;;
  setError "" ;;
  setLoading true ;;
  finally
    (try_catch
       (out <- ask (fun tr => signIn env tr (email form) (password form))
                   (ev_signIn (email form) (password form)) ;;
        emit (console_log "Sign in result:") ;;
        if isSignedIn out then checkUser
        else if signInStep out =? "CONFIRM_SIGN_UP" then
          setNeedsConfirmation true ;;
          setError "Your account is not confirmed. Please enter the confirmation code sent to your email."
        else
          setError "Sign in incomplete. Please try again.")
       (fun err =>
          emit (console_error "Sign in error:" err) ;;
          setError (message_or err "Failed to sign in. Please check your credentials.")))
    (setLoading false).

(** [createTask]. *)
Definition createTask : M AppState unit :=
  emit preventDefault ;;
  form <- get ;;
  if negb (truthy (JStr (trim (newTaskDescription form)))) then ret tt
  else
    setLoading true ;;
    setError "" ;;
    finally
      (try_catch
         (token <- getAuthToken ;;
          response <- do_fetch
            (mkRequest "POST" (to_string (API_ENDPOINT env) ++ "/tasks")
               [("Authorization", token);
                ("Content-Type", JStr "application/json")]
               (Some (JObj [("Description", JStr (newTaskDescription form))]))) ;;
          if negb (ok response) then throw (Error "Failed to create task")
          else
            setNewTaskDescription "" ;;
            fetchTasks)
         (fun err => setError (err_message err)))
      (setLoading false).

(** [updateTaskStatus]. *)
Definition updateTaskStatus (taskId : JSValue) (newStatus : string)
  : M AppState unit :=
  setLoading true ;;
  setError "" ;;
  finally
    (try_catch
       (token <- getAuthToken ;;
        response <- do_fetch
          (mkRequest "PUT"
             (to_string (API_ENDPOINT env) ++ "/tasks/" ++ to_string taskId)
             [("Authorization", token);
              ("Content-Type", JStr "application/json")]
             (Some (JObj [("Status", JStr newStatus)]))) ;;
        if negb (ok response) then throw (Error "Failed to update task")
        else fetchTasks)
       (fun err => setError (err_message err)))
    (setLoading false).

(** [deleteTask]. *)
Definition deleteTask (taskId : JSValue) : M AppState unit :=
  confirmed <- ask_bool
    (fun tr => window_confirm env tr "Are you sure you want to delete this task?")
    (ev_confirm "Are you sure you want to delete this task?") ;;
  if negb confirmed then ret tt
  else
    setLoading true ;;
    setError "" ;;
    finally
      (try_catch
         (token <- getAuthToken ;;
          response <- do_fetch
            (mkRequest "DELETE"
               (to_string (API_ENDPOINT env) ++ "/tasks/" ++ to_string taskId)
               [("Authorization", token)] None) ;;
          if negb (ok response) then throw (Error "Failed to delete task")
          else fetchTasks)
         (fun err => setError (err_message err)))
      (setLoading false).

End App.

(** [task.Status.toLowerCase() === filter.toLowerCase()], the callback of
    [getFilteredTasks]. *)
Definition status_matches (criterion : string) (task : JSValue) : Completion bool :=
  match get_prop task "Status" with
  | Throw e => Throw e
  | Normal (JStr st) => Normal (toLowerCase st =? toLowerCase criterion)
  | Normal JUndefined =>
      Throw (TypeError "Cannot read properties of undefined (reading 'toLowerCase')")
  | Normal JNull =>
      Throw (TypeError "Cannot read properties of null (reading 'toLowerCase')")
  | Normal _ => Throw (TypeError "task.Status.toLowerCase is not a function")
  end.

(** Array.prototype.filter with a callback that may throw. *)
Fixpoint array_filter (keep : JSValue -> Completion bool) (l : list JSValue)
  : Completion (list JSValue) :=
  match l with
  | [] => Normal []
  | x :: l' =>
      match keep x with
      | Throw e => Throw e
      | Normal b =>
          match array_filter keep l' with
          | Throw e => Throw e
          | Normal kept => Normal (if b then x :: kept else kept)
          end
      end
  end.

(** [getFilteredTasks], on the state of the render that calls it. *)
Definition getFilteredTasks (s : AppState) : Completion JSValue :=
  if filter s =? "all" then Normal (tasks s)
  else
    match tasks s with
    | JArr l =>
        match array_filter (status_matches (filter s)) l with
        | Normal kept => Normal (JArr kept)
        | Throw e => Throw e
        end
    | JUndefined =>
        Throw (TypeError "Cannot read properties of undefined (reading 'filter')")
    | JNull =>
        Throw (TypeError "Cannot read properties of null (reading 'filter')")
    | _ => Throw (TypeError "tasks.filter is not a function")
    end.

(** The three states of the session, as the render reads them: the task
    view when [user] is set, else the confirmation form when
    [needsConfirmation] is set, else the sign-in or sign-up form. *)
Inductive SessionState : Type := Anonymous | PendingConfirmation | Authenticated.

Definition session_state (s : AppState) : SessionState :=
  match user s with
  | Some _ => Authenticated
  | None => if needsConfirmation s then PendingConfirmation else Anonymous
  end.

(** ** The legacy page (plain JavaScript on Amplify's [Auth] and [API]) *)

Module Legacy.

(** The element [#task-list]: the text last assigned to [innerHTML] and
    the items appended after it, each kept as the task it shows. *)
Record TaskListEl : Type := mkTaskList {
  innerHTML : string;
  children : list JSValue
}.

(** The part of the document the task functions read and write. *)
Record Page : Type := mkPage {
  task_description : string;
  task_list : TaskListEl
}.

Definition with_task_description (v : string) (p : Page) : Page :=
  mkPage v (task_list p).
Definition with_task_list (l : TaskListEl) (p : Page) : Page :=
  mkPage (task_description p) l.

(** The answers of [Auth.currentSession()] (the encoded id token of the
    session), of the calls of [API] and of [confirm]. *)
Record Env : Type := mkEnv {
  currentSession : Trace -> Completion string;
  API : Trace -> string -> string -> option JSValue -> Completion JSValue;
  confirm : Trace -> string -> bool
}.

(** The double quote, for the text of the error paragraph. *)
Definition dquote : string := String (ascii_of_nat 34) EmptyString.

(** [tasks.length]. *)
Definition js_length (v : JSValue) : Completion JSValue :=
  match v with
  | JArr l => Normal (JNum (Z.of_nat (List.length l)))
  | JStr s => Normal (JNum (Z.of_nat (String.length s)))
  | _ => get_prop v "length"
  end.

Section Page.

Variable env : Env.

(** [custom_header], the token provider of the API endpoint. *)
Definition custom_header {S} : M S JSValue :=
  try_catch
    (jwt <- ask (currentSession env) ev_currentSession ;;
     ret (JObj [("Authorization", JStr jwt)]))
    (fun _ => ret (JObj [])).

Definition call_API (verb path : string) (payload : option JSValue)
  : M Page JSValue :=
  ask (fun tr => API env tr verb path payload) (ev_API verb path payload).

(** The callback of [tasks.forEach]: it reads [task.Status] first and
    appends the item last. *)
Definition display_one (task : JSValue) : M Page unit :=
  _ <- lift (get_prop task "Status") ;;
  modify (fun p =>
    with_task_list
      (mkTaskList (innerHTML (task_list p)) (children (task_list p) ++ [task])%list)
      p).

Fixpoint forEach (l : list JSValue) : M Page unit :=
  match l with
  | [] => ret tt
  | task :: l' => display_one task ;; forEach l'
  end.

(** [displayTasks]. *)
Definition displayTasks (tasks : JSValue) : M Page unit :=
  modify (with_task_list (mkTaskList "" [])) ;;
  len <- lift (js_length tasks) ;;
  match len with
  | JNum 0 =>
      modify (with_task_list
                (mkTaskList "<p>No tasks found. Create one above!</p>" []))
  | _ =>
      match tasks with
      | JArr l => forEach l
      | _ => throw (TypeError "tasks.forEach is not a function")
      end
  end.

(** [fetchTasks]. *)
Definition fetchTasks : M Page unit :=
  try_catch
    (tasks <- call_API "GET" "/tasks" None ;;
     displayTasks tasks)
    (fun error =>
       emit (console_error "Error fetching tasks:" error) ;;
       modify (with_task_list
         (mkTaskList ("<p style=" ++ dquote ++ "color:red;" ++ dquote
                      ++ ">Error loading tasks: "
                      ++ err_message error ++ "</p>") []))).

(** [createTask]. The refresh [fetchTasks()] is started and not awaited;
    nothing follows it, so it runs as the tail of the function. *)
Definition createTask : M Page unit :=
  page <- get ;;
  let description := task_description page in
  if negb (truthy (JStr description)) then ret tt
  else
    try_catch
      (_ <- call_API "POST" "/tasks"
              (Some (JObj [("Description", JStr description)])) ;;
       modify (with_task_description "") ;;
       fetchTasks)
      (fun error => emit (console_error "Error creating task:" error)).

(** [deleteTask]. *)
Definition deleteTask (taskId : JSValue) : M Page unit :=
  confirmed <- ask_bool
    (fun tr => confirm env tr "Are you sure you want to delete this task?")
    (ev_confirm "Are you sure you want to delete this task?") ;;
  if negb confirmed then ret tt
  else
    try_catch
      (_ <- call_API "DELETE" ("/tasks/" ++ to_string taskId) None ;;
       fetchTasks)
      (fun error => emit (console_error "Error deleting task:" error)).

End Page.

End Legacy.

(** ** Reading a trace *)

(** The interactions that go to the network: the identity provider and
    the task API. *)
Definition is_network_call (ev : Event) : bool :=
  match ev with
  | ev_fetchAuthSession _ _ | ev_fetch _ _ | ev_getCurrentUser _
  | ev_signIn _ _ _ | ev_currentSession _ | ev_API _ _ _ _ => true
  | preventDefault | console_log _ | console_error _ _ | ev_confirm _ _ => false
  end.

Definition no_network_call (tr : Trace) : Prop :=
  Forall (fun ev => is_network_call ev = false) tr.

(** The three parts of a finished run. *)
Definition result_of {S A} (r : Completion A * (S * Trace)) : Completion A := fst r.
Definition state_of {S A} (r : Completion A * (S * Trace)) : S := fst (snd r).
Definition trace_of {S A} (r : Completion A * (S * Trace)) : Trace := snd (snd r).

(** The interactions a run added to the trace [tr] it started from. *)
Definition events_since {S A} (tr : Trace) (r : Completion A * (S * Trace)) : Trace :=
  skipn (List.length tr) (trace_of r).

(** The request of the first call of [fetch] in a trace. *)
Fixpoint first_fetch (tr : Trace) : option Request :=
  match tr with
  | [] => None
  | ev_fetch req _ :: _ => Some req
  | _ :: tr' => first_fetch tr'
  end.

(** ** The render's use of the task id *)

Section Buttons.

Variable env : Env.

(** [onClick={() => updateTaskStatus(getTaskId(task.SK), 'Completed')}]. *)
Definition onClick_complete (task : JSValue) : M AppState unit :=
  sk <- lift (get_prop task "SK") ;;
  taskId <- lift (getTaskId sk) ;;
  updateTaskStatus env taskId "Completed".

(** [onClick={() => deleteTask(getTaskId(task.SK))}]. *)
Definition onClick_delete (task : JSValue) : M AppState unit :=
  sk <- lift (get_prop task "SK") ;;
  taskId <- lift (getTaskId sk) ;;
  deleteTask env taskId.

End Buttons.

(** The four operations of the task view. *)
Inductive Operation : Type :=
| Load
| Create
| SetStatus (taskId : JSValue) (newStatus : string)
| Remove (taskId : JSValue).

Definition perform (env : Env) (op : Operation) : M AppState unit :=
  match op with
  | Load => fetchTasks env
  | Create => createTask env
  | SetStatus taskId newStatus => updateTaskStatus env taskId newStatus
  | Remove taskId => deleteTask env taskId
  end.

(** ** The words of the specification *)

(** Two characters are the same letter when they are equal or one is an
    upper-case letter and the other its lower-case form. *)
Definition is_upper (c : ascii) : bool :=
  ((65 <=? nat_of_ascii c) && (nat_of_ascii c <=? 90))%nat.

Definition same_letter (a b : ascii) : bool :=
  Ascii.eqb a b
  || (is_upper a && (nat_of_ascii b =? nat_of_ascii a + 32)%nat)
  || (is_upper b && (nat_of_ascii a =? nat_of_ascii b + 32)%nat).

(** Equality of strings up to the case of their letters. *)
Fixpoint eq_ci (s t : string) : bool :=
  match s, t with
  | EmptyString, EmptyString => true
  | String a s', String b t' => same_letter a b && eq_ci s' t'
  | _, _ => false
  end.

(** A task of the cached list: a value whose [Status] is a string. *)
Definition is_task (task : JSValue) : Prop :=
  exists st, get_prop task "Status" = Normal (JStr st).

(** The task's status is [x], whatever the case of the letters. *)
Definition has_status (x : string) (task : JSValue) : bool :=
  match get_prop task "Status" with
  | Normal (JStr st) => eq_ci st x
  | _ => false
  end.

(** The character occurs in the string. *)
Fixpoint has_char (c : ascii) (s : string) : bool :=
  match s with
  | EmptyString => false
  | String c' s' => Ascii.eqb c' c || has_char c s'
  end.

(** The string is empty or made of white space only. *)
Fixpoint blank (s : string) : bool :=
  match s with
  | EmptyString => true
  | String c s' => is_white c && blank s'
  end.

(** Reading the field of a body yields nothing: the body is an object
    without it, or a value other than [null] that has no fields. *)
Definition lacks_field (name : string) (data : JSValue) : Prop :=
  get_prop data name = Normal JUndefined.

(** The body of a reload cannot be used: [response.json()] throws, or the
    read of [Items] does. *)
Definition body_unreadable (resp : Response) : bool :=
  match json resp with
  | Throw _ => true
  | Normal data =>
      match get_prop data "Items" with
      | Throw _ => true
      | Normal _ => false
      end
  end.

(** A request that failed: [fetch] rejected (a network-level failure), the
    status is not 2xx, or the body of a reload cannot be used. *)
Definition failed_fetch (ev : Event) : bool :=
  match ev with
  | ev_fetch _ (Throw _) => true
  | ev_fetch req (Normal resp) =>
      negb (ok resp) || ((method req =? "GET") && body_unreadable resp)
  | _ => false
  end.

(** A token refresh that produced no token. *)
Definition token_absent (ev : Event) : bool :=
  match ev with
  | ev_fetchAuthSession _ (Throw _) => true
  | ev_fetchAuthSession _ (Normal session) => negb (truthy (idToken_string session))
  | _ => false
  end.

(** The message thrown on a response that is not 2xx, by the method of
    the request that received it. *)
Definition failure_message (req : Request) : string :=
  if method req =? "GET" then "Failed to fetch tasks"
  else if method req =? "POST" then "Failed to create task"
  else if method req =? "PUT" then "Failed to update task"
  else if method req =? "DELETE" then "Failed to delete task"
  else "".

(** Every cell but [tasks], [loading], [error] and [newTaskDescription]
    is the same in two states. *)
Definition same_session_and_form (s s' : AppState) : Prop :=
  user s' = user s /\ email s' = email s /\ password s' = password s /\
  isSignUp s' = isSignUp s /\ needsConfirmation s' = needsConfirmation s /\
  confirmationCode s' = confirmationCode s /\ filter s' = filter s.

(** The answer to a request is a failure: [fetch] rejected, or the
    status is not 2xx. *)
Definition rejected (res : Completion Response) : Prop :=
  match res with
  | Throw _ => True
  | Normal resp => ok resp = false
  end.

(** The message the handlers record for such an answer. *)
Definition recorded_message (req : Request) (res : Completion Response) : string :=
  match res with
  | Throw e => err_message e
  | Normal _ => failure_message req
  end.

(** Between two states only the error message and the loading flag
    differ. *)
Definition only_error_and_loading_change (s s' : AppState) : Prop :=
  s' = with_loading (loading s') (with_error (error s') s).

(** ** Environments used in the examples *)

(** An environment whose answers do not depend on the history. *)
Definition fixed_env (endpoint : string) (session : Completion Session)
           (answer : Request -> Completion Response)
           (sign_in : Completion SignInOutput) (confirmed : bool) : Env :=
  mkEnv (JStr endpoint)
        (fun _ => session)
        (fun _ req => answer req)
        (fun _ => Throw (mkError "UserUnAuthenticatedException"
                                 "User needs to be authenticated to call this API."))
        (fun _ _ _ => sign_in)
        (fun _ _ => confirmed).

Definition a_session : Completion Session :=
  Normal (mkSession (Some (mkTokens (Some "eyJraWQ")))).

Definition no_session : Completion Session :=
  Throw (mkError "NotAuthorizedException" "Refresh Token has expired").

Definition a_task : JSValue :=
  JObj [("SK", JStr "TASK#42"); ("Description", JStr "buy milk");
        ("Status", JStr "Pending")].

Definition done_task : JSValue :=
  JObj [("SK", JStr "TASK#7"); ("Description", JStr "pay rent");
        ("Status", JStr "COMPLETED")].

(** A task API that accepts everything and lists [a_task]. *)
Definition api_up (req : Request) : Completion Response :=
  if method req =? "GET" then
    Normal (mkResponse 200 (Normal (JObj [("Items", JArr [a_task])])))
  else Normal (mkResponse 201 (Normal (JObj []))).

(** A task API that accepts a change and is then unreachable for the
    reload. *)
Definition api_down_for_reload (req : Request) : Completion Response :=
  if method req =? "GET" then Throw (TypeError "Failed to fetch")
  else Normal (mkResponse 201 (Normal (JObj []))).

(** A task API that answers every request with the given status. *)
Definition api_status (code : Z) (req : Request) : Completion Response :=
  Normal (mkResponse code (Normal (JObj [("message", JStr "Internal server error")]))).

Definition not_confirmed : Completion SignInOutput :=
  Normal (mkSignInOutput false "CONFIRM_SIGN_UP").

Definition legacy_env (confirmed : bool) : Legacy.Env :=
  Legacy.mkEnv (fun _ => Throw (Error "No current user"))
               (fun _ _ _ _ => Normal (JArr []))
               (fun _ _ => confirmed).

Definition empty_page : Legacy.Page :=
  Legacy.mkPage "" (Legacy.mkTaskList "" []).

(** ** The rest of the component: the effect, the buttons, the counters *)

Definition with_isSignUp (b : bool) (s : AppState) : AppState :=
  mkState (user s) (tasks s) (loading s) (error s) (email s) (password s) b
          (needsConfirmation s) (confirmationCode s) (newTaskDescription s) (filter s).
Definition with_confirmationCode (c : string) (s : AppState) : AppState :=
  mkState (user s) (tasks s) (loading s) (error s) (email s) (password s) (isSignUp s)
          (needsConfirmation s) c (newTaskDescription s) (filter s).

(** [user?.userId]. *)
Definition userId_of (u : option User) : JSValue :=
  match u with
  | Some usr => JStr (userId usr)
  | None => JUndefined
  end.

(** The effect on [user]: [if (user?.userId) fetchTasks()]. *)
Definition useEffect_user (env : Env) : M AppState unit :=
  s <- get ;;
  if truthy (userId_of (user s)) then fetchTasks env else ret tt.

(** The button Back to Sign In:
    [() => { setNeedsConfirmation(false); setError(''); }]. *)
Definition onClick_back_to_sign_in : M AppState unit :=
  setNeedsConfirmation false ;;
  setError "".

(** [t.Status === label], the callback of the counters on the filter
    buttons: no change of case, and [false] when the status is no string. *)
Definition status_is (label : string) (task : JSValue) : Completion bool :=
  match get_prop task "Status" with
  | Throw e => Throw e
  | Normal (JStr st) => Normal (st =? label)
  | Normal _ => Normal false
  end.

(** [tasks.filter(t => t.Status === label).length]. *)
Definition count_status (label : string) (s : AppState) : Completion nat :=
  match tasks s with
  | JArr l =>
      match array_filter (status_is label) l with
      | Normal kept => Normal (List.length kept)
      | Throw e => Throw e
      end
  | JUndefined =>
      Throw (TypeError "Cannot read properties of undefined (reading 'filter')")
  | JNull =>
      Throw (TypeError "Cannot read properties of null (reading 'filter')")
  | _ => Throw (TypeError "tasks.filter is not a function")
  end.

(** ** More words for the traces *)

(** The calls of [fetch] in a trace, in order, each with its answer. *)
Fixpoint fetches (tr : Trace) : list (Request * Completion Response) :=
  match tr with
  | [] => []
  | ev_fetch req res :: tr' => (req, res) :: fetches tr'
  | _ :: tr' => fetches tr'
  end.

(** The answer is a response with a 2xx status. *)
Definition accepted (res : Completion Response) : bool :=
  match res with
  | Normal resp => ok resp
  | Throw _ => false
  end.

(** The HTTP method of the request an operation starts with. *)
Definition verb (op : Operation) : string :=
  match op with
  | Load => "GET"
  | Create => "POST"
  | SetStatus _ _ => "PUT"
  | Remove _ => "DELETE"
  end.

(** The token a refresh hands to the request that follows it. *)
Definition token_of (r : Completion Session) : JSValue :=
  match r with
  | Normal session => idToken_string session
  | Throw _ => JNull
  end.

(** Every request of the trace comes after a token refresh of its own and
    carries the token of that refresh as its [Authorization] header;
    [fresh] is the token of a refresh not yet used by a request. *)
Fixpoint tokens_attached (fresh : option JSValue) (tr : Trace) : Prop :=
  match tr with
  | [] => True
  | ev_fetchAuthSession _ r :: tr' => tokens_attached (Some (token_of r)) tr'
  | ev_fetch req _ :: tr' =>
      assoc "Authorization" (headers req) = fresh /\ fresh <> None /\
      tokens_attached None tr'
  | _ :: tr' => tokens_attached fresh tr'
  end.

(** The value is a task: its [Status] is a string. *)
Definition is_taskb (task : JSValue) : bool :=
  match get_prop task "Status" with
  | Normal (JStr _) => true
  | _ => false
  end.

(** The cells that the sign-in and sign-up handlers never write. *)
Definition same_tasks_and_form (s s' : AppState) : Prop :=
  tasks s' = tasks s /\ email s' = email s /\ password s' = password s /\
  isSignUp s' = isSignUp s /\ newTaskDescription s' = newTaskDescription s /\
  filter s' = filter s.

(** ** Signing up, confirming and signing out *)

(** The value of [signUp()] and of [confirmSignUp()]: [isSignUpComplete]
    and [nextStep.signUpStep]. *)
Record SignUpOutput : Type :=
  mkSignUpOutput { isSignUpComplete : bool; signUpStep : string }.

(** The calls to the identity provider that the task handlers never make:
    those of the component, then those of the legacy page on [Auth]. *)
Inductive ProviderCall : Type :=
| ev_signUp (user_name pass_word : string) (r : Completion SignUpOutput)
| ev_confirmSignUp (user_name code : string) (r : Completion SignUpOutput)
| ev_signOut (r : Completion unit)
| ev_Auth_signUp (user_name pass_word : string) (r : Completion unit)
| ev_Auth_signIn (user_name pass_word : string) (r : Completion unit)
| ev_Auth_signOut (r : Completion unit).

(** The history of a session: the events of the handlers above and the
    provider calls of the handlers below, in the order they happened. *)
Definition History : Type := list (Event + ProviderCall).

(** The outside of the authentication handlers. [handlers_env h] is the
    environment of the handlers above once [h] has happened: its answers
    depend on [h] and on the events since. *)
Record Provider : Type := mkProvider {
  handlers_env : History -> Env;
  signUp : History -> string -> string -> Completion SignUpOutput;
  confirmSignUp : History -> string -> string -> Completion SignUpOutput;
  signOut : History -> Completion unit
}.

(** Computations over a history, with the same constructs as [M]. *)
Module Flow.

Definition t (S A : Type) : Type := S * History -> Completion A * (S * History).

Definition ret {S A} (a : A) : t S A := fun w => (Normal a, w).

Definition bind {S A B} (m : t S A) (k : A -> t S B) : t S B :=
  fun w =>
    match m w with
    | (Normal a, w') => k a w'
    | (Throw e, w') => (Throw e, w')
    end.

Definition try_catch {S A} (m : t S A) (h : JSError -> t S A) : t S A :=
  fun w =>
    match m w with
    | (Normal a, w') => (Normal a, w')
    | (Throw e, w') => h e w'
    end.

Definition finally {S A} (m : t S A) (f : t S unit) : t S A :=
  fun w =>
    match m w with
    | (r, w') =>
        match f w' with
        | (Normal _, w'') => (r, w'')
        | (Throw e, w'') => (Throw e, w'')
        end
    end.

Definition get {S} : t S S := fun w => (Normal (fst w), w).

Definition modify {S} (f : S -> S) : t S unit :=
  fun w => (Normal tt, (f (fst w), snd w)).

(** Record an event of the browser. *)
Definition emit {S} (ev : Event) : t S unit :=
  fun w => (Normal tt, (fst w, (snd w ++ [inl ev])%list)).

(** Call the provider and record the call with its answer. *)
Definition ask {S A} (oracle : History -> Completion A)
           (record : Completion A -> ProviderCall) : t S A :=
  fun w => let r := oracle (snd w) in (r, (fst w, (snd w ++ [inr (record r)])%list)).

(** Run one of the handlers above on the part [view] of the state, in the
    environment that the history so far leaves; its events join the
    history. *)
Definition call {S T A} (view : T -> S) (update : S -> T -> T)
           (handler : History -> M S A) : t T A :=
  fun w =>
    let r := handler (snd w) (view (fst w), []) in
    (fst r, (update (fst (snd r)) (fst w), (snd w ++ map inl (snd (snd r)))%list)).

End Flow.

Declare Scope flow_scope.
Delimit Scope flow_scope with flow.
Notation "x <- m ;; k" := (Flow.bind m (fun x => k))
  (at level 61, m at next level, right associativity) : flow_scope.
Notation "m ;; k" := (Flow.bind m (fun _ => k))
  (at level 61, right associativity) : flow_scope.

Section Authentication.

Variable provider : Provider.

Local Open Scope flow_scope.

(** A handler of the component above, called from here. *)
Definition call_handler {A} (handler : Env -> M AppState A) : Flow.t AppState A :=
  Flow.call (fun s => s) (fun s _ => s) (fun h => handler (handlers_env provider h)).

(** [handleSignUp]: the confirmation of a code when [needsConfirmation] is
    set, the sign-up otherwise. *)
Definition handleSignUp : Flow.t AppState unit :=
  Flow.emit preventDefault ;;
  form <- Flow.get ;;
  Flow.modify (with_error "") ;;
  Flow.modify (with_loading true) ;;
  if needsConfirmation form then
    Flow.finally
      (Flow.try_catch
         (out <- Flow.ask
                   (fun h => confirmSignUp provider h (email form) (confirmationCode form))
                   (ev_confirmSignUp (email form) (confirmationCode form)) ;;
          Flow.emit (console_log "Confirmation result:") ;;
          if isSignUpComplete out then
            Flow.modify (with_needsConfirmation false) ;;
            Flow.modify (with_confirmationCode "") ;;
            call_handler (fun env => handleSignIn env true)
          else
            Flow.modify (with_error "Confirmation failed, please try again."))
         (fun err =>
            Flow.emit (console_error "Confirmation error:" err) ;;
            Flow.modify (with_error (message_or err "Invalid confirmation code."))))
      (Flow.modify (with_loading false))
  else
    Flow.finally
      (Flow.try_catch
         (out <- Flow.ask
                   (fun h => signUp provider h (email form) (password form))
                   (ev_signUp (email form) (password form)) ;;
          Flow.emit (console_log "Sign up result:") ;;
          if isSignUpComplete out then call_handler checkUser
          else if signUpStep out =? "CONFIRM_SIGN_UP" then
            Flow.modify (with_needsConfirmation true) ;;
            Flow.modify (with_error "A confirmation code has been sent to your email.")
          else Flow.ret tt)
         (fun err =>
            Flow.emit (console_error "Sign up error:" err) ;;
            Flow.modify
              (with_error (message_or err "Failed to sign up. Please try again."))))
      (Flow.modify (with_loading false)).

(** [handleSignOut]. *)
Definition handleSignOut : Flow.t AppState unit :=
  Flow.try_catch
    (_ <- Flow.ask (signOut provider) ev_signOut ;;
     Flow.modify (with_user None) ;;
     Flow.modify (with_tasks (JArr [])))
    (fun err => Flow.modify (with_error (err_message err))).

(** The [onSubmit] of the authentication form:
    [needsConfirmation ? handleSignUp : (isSignUp ? handleSignUp : handleSignIn)]. *)
Definition onSubmit : Flow.t AppState unit :=
  form <- Flow.get ;;
  if needsConfirmation form then handleSignUp
  else if isSignUp form then handleSignUp
  else call_handler (fun env => handleSignIn env false).

(** The button Back to Sign In, then a submit of the form it shows. *)
Definition back_then_submit : Flow.t AppState unit :=
  call_handler (fun _ => onClick_back_to_sign_in) ;;
  onSubmit.

End Authentication.

(** The kinds of authentication call. *)
Inductive CallKind : Type :=
| CallSignUp | CallConfirmSignUp | CallSignOut | CallSignIn | CallGetCurrentUser.

(** The authentication calls of a history, in order. *)
Fixpoint provider_calls (h : History) : list CallKind :=
  match h with
  | [] => []
  | inr (ev_signUp _ _ _) :: h' => CallSignUp :: provider_calls h'
  | inr (ev_confirmSignUp _ _ _) :: h' => CallConfirmSignUp :: provider_calls h'
  | inr (ev_signOut _) :: h' => CallSignOut :: provider_calls h'
  | inr (ev_Auth_signUp _ _ _) :: h' => CallSignUp :: provider_calls h'
  | inr (ev_Auth_signIn _ _ _) :: h' => CallSignIn :: provider_calls h'
  | inr (ev_Auth_signOut _) :: h' => CallSignOut :: provider_calls h'
  | inl (ev_signIn _ _ _) :: h' => CallSignIn :: provider_calls h'
  | inl (ev_getCurrentUser _) :: h' => CallGetCurrentUser :: provider_calls h'
  | _ :: h' => provider_calls h'
  end.

(** What a run added to the history [h] it started from. *)
Definition history_since {S A} (h : History) (r : Completion A * (S * History))
  : History :=
  skipn (List.length h) (snd (snd r)).

(** The completion and the state a run over a history ends with. *)
Definition outcome {S A} (r : Completion A * (S * History)) : Completion A := fst r.
Definition final_state {S A} (r : Completion A * (S * History)) : S := fst (snd r).

(** A provider that answers the same whatever happened. *)
Definition fixed_provider (env : Env) (sign_up confirmation : Completion SignUpOutput)
           (sign_out : Completion unit) : Provider :=
  mkProvider (fun _ => env) (fun _ _ _ => sign_up) (fun _ _ _ => confirmation)
             (fun _ => sign_out).

Definition must_confirm : Completion SignUpOutput :=
  Normal (mkSignUpOutput false "CONFIRM_SIGN_UP").

Definition sign_up_done : Completion SignUpOutput :=
  Normal (mkSignUpOutput true "DONE").

Definition code_mismatch : Completion SignUpOutput :=
  Throw (mkError "CodeMismatchException"
                 "Invalid verification code provided, please try again.").

(** ** The rest of the legacy page *)

Module LegacyPage.

(** A message element: its [textContent] and its [style.color]. *)
Record MessageEl : Type := mkMessage { textContent : string; color : string }.

(** The document of the legacy page: the task part above, the four inputs
    of the two forms, the two message elements and the [style.display] of
    the two sections. All these elements are taken to exist. *)
Record Document : Type := mkDocument {
  page : Legacy.Page;
  signup_email : string;
  signup_password : string;
  signin_email : string;
  signin_password : string;
  signup_message : MessageEl;
  signin_message : MessageEl;
  auth_section_display : string;
  app_section_display : string
}.

Definition with_page (p : Legacy.Page) (d : Document) : Document :=
  mkDocument p (signup_email d) (signup_password d) (signin_email d)
             (signin_password d) (signup_message d) (signin_message d)
             (auth_section_display d) (app_section_display d).
Definition with_signup_message (m : MessageEl) (d : Document) : Document :=
  mkDocument (page d) (signup_email d) (signup_password d) (signin_email d)
             (signin_password d) m (signin_message d)
             (auth_section_display d) (app_section_display d).
Definition with_signin_message (m : MessageEl) (d : Document) : Document :=
  mkDocument (page d) (signup_email d) (signup_password d) (signin_email d)
             (signin_password d) (signup_message d) m
             (auth_section_display d) (app_section_display d).
Definition with_displays (auth app : string) (d : Document) : Document :=
  mkDocument (page d) (signup_email d) (signup_password d) (signin_email d)
             (signin_password d) (signup_message d) (signin_message d) auth app.

(** The outside of the legacy page: [Auth.signUp], [Auth.signIn],
    [Auth.signOut], and the environment of the task functions once a
    history has happened. *)
Record Outside : Type := mkOutside {
  env_after : History -> Legacy.Env;
  Auth_signUp : History -> string -> string -> Completion unit;
  Auth_signIn : History -> string -> string -> Completion unit;
  Auth_signOut : History -> Completion unit
}.

(** [updateTask]; like [createTask], it starts the refresh and does not
    await it. *)
Definition updateTask (env : Legacy.Env) (taskId : JSValue) (status : string)
  : M Legacy.Page unit :=
  try_catch
    (_ <- Legacy.call_API env "PUT" ("/tasks/" ++ to_string taskId)
            (Some (JObj [("Status", JStr status)])) ;;
     Legacy.fetchTasks env)
    (fun error => emit (console_error "Error updating task:" error)).

(** The three functions that change the list. *)
Inductive Change : Type :=
| NewTask
| UpdateTask (taskId : JSValue) (status : string)
| DeleteTask (taskId : JSValue).

Definition change (env : Legacy.Env) (c : Change) : M Legacy.Page unit :=
  match c with
  | NewTask => Legacy.createTask env
  | UpdateTask taskId status => updateTask env taskId status
  | DeleteTask taskId => Legacy.deleteTask env taskId
  end.

(** The call of [API] that a change makes. *)
Definition change_call (p : Legacy.Page) (c : Change)
  : string * string * option JSValue :=
  match c with
  | NewTask =>
      ("POST", "/tasks", Some (JObj [("Description", JStr (Legacy.task_description p))]))
  | UpdateTask taskId status =>
      ("PUT", "/tasks/" ++ to_string taskId, Some (JObj [("Status", JStr status)]))
  | DeleteTask taskId => ("DELETE", "/tasks/" ++ to_string taskId, None)
  end.

(** The events of a change before its call: the prompt of a deletion. *)
Definition change_prompt (c : Change) : Trace :=
  match c with
  | DeleteTask _ => [ev_confirm "Are you sure you want to delete this task?" true]
  | _ => []
  end.

(** The message [console.error] gets when the call of a change fails. *)
Definition change_label (c : Change) : string :=
  match c with
  | NewTask => "Error creating task:"
  | UpdateTask _ _ => "Error updating task:"
  | DeleteTask _ => "Error deleting task:"
  end.

(** The page once the call of a change has been accepted: a new task
    clears the input. *)
Definition after_accepted (c : Change) (p : Legacy.Page) : Legacy.Page :=
  match c with
  | NewTask => Legacy.with_task_description "" p
  | _ => p
  end.

Section Forms.

Variable out : Outside.

Local Open Scope flow_scope.

(** [updateUIAfterAuth]. *)
Definition updateUIAfterAuth (isAuthenticated : bool) : Flow.t Document unit :=
  Flow.modify (with_displays (if isAuthenticated then "none" else "block")
                             (if isAuthenticated then "block" else "none")).

(** A task function of the page, called from here. *)
Definition call_page {A} (f : Legacy.Env -> M Legacy.Page A) : Flow.t Document A :=
  Flow.call page with_page (fun h => f (env_after out h)).

(** [signUp]. *)
Definition signUp : Flow.t Document unit :=
  d <- Flow.get ;;
  Flow.try_catch
    (_ <- Flow.ask (fun h => Auth_signUp out h (signup_email d) (signup_password d))
                   (ev_Auth_signUp (signup_email d) (signup_password d)) ;;
     Flow.modify (with_signup_message
                    (mkMessage "Sign Up Success! User created. Sign In now." "green")))
    (fun error =>
       Flow.modify (with_signup_message
                      (mkMessage ("Error signing up: " ++ err_message error) "red")) ;;
       Flow.emit (console_error "Sign Up Error:" error)).

(** [signIn]; the refresh [fetchTasks()] is the last statement of the
    [try] block and is not awaited. *)
Definition signIn : Flow.t Document unit :=
  d <- Flow.get ;;
  Flow.try_catch
    (_ <- Flow.ask (fun h => Auth_signIn out h (signin_email d) (signin_password d))
                   (ev_Auth_signIn (signin_email d) (signin_password d)) ;;
     Flow.modify (with_signin_message (mkMessage "Sign In Success!" "green")) ;;
     updateUIAfterAuth true ;;
     call_page Legacy.fetchTasks)
    (fun error =>
       Flow.modify (with_signin_message
                      (mkMessage ("Error signing in: " ++ err_message error) "red")) ;;
       Flow.emit (console_error "Sign In Error:" error)).

(** [signOut]. *)
Definition signOut : Flow.t Document unit :=
  Flow.try_catch
    (_ <- Flow.ask (Auth_signOut out) ev_Auth_signOut ;;
     Flow.modify (with_signin_message (mkMessage "Signed Out." "blue")) ;;
     updateUIAfterAuth false)
    (fun error => Flow.emit (console_error "Error signing out:" error)).

(** [checkAuthStatus], the handler of [window.onload]. *)
Definition checkAuthStatus : Flow.t Document unit :=
  Flow.try_catch
    (_ <- call_page (fun env => ask (Legacy.currentSession env) ev_currentSession) ;;
     updateUIAfterAuth true ;;
     call_page Legacy.fetchTasks)
    (fun _ => updateUIAfterAuth false).

End Forms.

(** The three buttons of the forms and of the header. *)
Inductive FormAction : Type := PressSignUp | PressSignIn | PressSignOut.

Definition press (out : Outside) (a : FormAction) : Flow.t Document unit :=
  match a with
  | PressSignUp => signUp out
  | PressSignIn => signIn out
  | PressSignOut => signOut out
  end.

(** One button after the other, each handler run to its end. *)
Fixpoint presses (out : Outside) (l : list FormAction) : Flow.t Document unit :=
  match l with
  | [] => Flow.ret tt
  | a :: l' => Flow.bind (press out a) (fun _ => presses out l')
  end.

(** Exactly one of the two sections shows. *)
Definition one_section_shows (d : Document) : Prop :=
  (auth_section_display d = "none" /\ app_section_display d = "block") \/
  (auth_section_display d = "block" /\ app_section_display d = "none").

End LegacyPage.

(** The paragraph the legacy list shows for a failure. *)
Definition error_paragraph (msg : string) : Legacy.TaskListEl :=
  Legacy.mkTaskList
    ("<p style=" ++ Legacy.dquote ++ "color:red;" ++ Legacy.dquote
     ++ ">Error loading tasks: " ++ msg ++ "</p>") [].

(** What the legacy list shows for an array of tasks. *)
Definition listing (ts : list JSValue) : Legacy.TaskListEl :=
  match ts with
  | [] => Legacy.mkTaskList "<p>No tasks found. Create one above!</p>" []
  | _ => Legacy.mkTaskList "" ts
  end.

(** A legacy outside that answers the same whatever happened. *)
Definition fixed_outside (env : Legacy.Env) (sign_up sign_in sign_out : Completion unit)
  : LegacyPage.Outside :=
  LegacyPage.mkOutside (fun _ => env) (fun _ _ _ => sign_up) (fun _ _ _ => sign_in)
                       (fun _ => sign_out).

Definition a_document : LegacyPage.Document :=
  LegacyPage.mkDocument
    (Legacy.mkPage "call mum" (Legacy.mkTaskList "" [a_task]))
    "" "" "ann@example.com" "correct horse" (LegacyPage.mkMessage "" "")
    (LegacyPage.mkMessage "" "") "none" "block".

(** ** What a failed and what a completed operation leave *)

(** The last call of [fetch] in a trace, with its answer. *)
Definition last_fetch (tr : Trace) : option (Request * Completion Response) :=
  List.last (map Some (fetches tr)) None.

(** The message that the answer to a request leaves in the error cell
    when it ends the operation: the message of the rejection, the fixed
    message of a status outside 2xx, or the message of the throw of
    [response.json()] or of the read of [Items]. *)
Definition failure_text (f : Request * Completion Response) : string :=
  match snd f with
  | Throw e => err_message e
  | Normal resp =>
      if ok resp then
        match json resp with
        | Throw e => err_message e
        | Normal data =>
            match get_prop data "Items" with
            | Throw e => err_message e
            | Normal _ => ""
            end
        end
      else failure_message (fst f)
  end.

(** The list that a 2xx answer with a readable body puts in the cache:
    [data.Items || []]. *)
Definition loaded_items (res : Completion Response) : option JSValue :=
  match res with
  | Throw _ => None
  | Normal resp =>
      if ok resp then
        match json resp with
        | Throw _ => None
        | Normal data =>
            match get_prop data "Items" with
            | Throw _ => None
            | Normal items => Some (js_or items (JArr []))
            end
        end
      else None
  end.

(** The operation is [createTask] and its POST, the first request of the
    trace, was answered with a 2xx status. *)
Definition create_accepted (op : Operation) (tr : Trace) : bool :=
  match op, fetches tr with
  | Create, (_, res) :: _ => accepted res
  | _, _ => false
  end.

(** Token refreshes and requests alternate: every refresh, whatever it
    gave, is followed by a request that carries what it gave as its
    [Authorization] header, and no request goes without one. [pending] is
    the outcome of a refresh that still waits for its request. *)
Fixpoint each_refresh_is_used (pending : option JSValue) (tr : Trace) : Prop :=
  match tr with
  | [] => pending = None
  | ev_fetchAuthSession _ r :: tr' =>
      pending = None /\ each_refresh_is_used (Some (token_of r)) tr'
  | ev_fetch req _ :: tr' =>
      assoc "Authorization" (headers req) = pending /\ pending <> None /\
      each_refresh_is_used None tr'
  | _ :: tr' => each_refresh_is_used pending tr'
  end.

(** The state that a rejected request leaves: the state before the
    operation with the loading flag cleared and the message as the error,
    and with the description input cleared when the request is the reload
    of a [createTask]. Nothing of the answer but the message enters it. *)
Definition after_failure (op : Operation) (req : Request) (msg : string)
           (s : AppState) : AppState :=
  with_loading false
    (with_error msg
       (match op with
        | Create => if method req =? "GET" then with_newTaskDescription "" s else s
        | _ => s
        end)).

(** ** Where the model of strings and numbers is exact *)

(** All characters are ASCII: on such a string [trim] and [toLowerCase]
    above are those of JavaScript. *)
Fixpoint ascii_only (s : string) : bool :=
  match s with
  | EmptyString => true
  | String c s' => (nat_of_ascii c <? 128)%nat && ascii_only s'
  end.

(** The criteria that the filter buttons set, [all] apart. *)
Definition criteria : list string := ["pending"; "completed"; "expired"].

(** A value that a template literal prints as [to_string] does: anything
    but an array, and a number only when it is a safe integer, below
    2^53 in size. *)
Definition exactly_printed (v : JSValue) : bool :=
  match v with
  | JNum n => (Z.abs n <=? 9007199254740991)%Z
  | JArr _ => false
  | _ => true
  end.

(** ** Strings: lower case, trimming, splitting *)

Lemma nat_of_ascii_inj (a b : ascii) : nat_of_ascii a = nat_of_ascii b -> a = b.
Proof.
  intros H. rewrite <- (ascii_nat_embedding a), <- (ascii_nat_embedding b).
  now rewrite H.
Qed.

Lemma nat_of_lower_char (c : ascii) :
  nat_of_ascii (lower_char c)
  = if is_upper c then (nat_of_ascii c + 32)%nat else nat_of_ascii c.
Proof.
  unfold lower_char, is_upper.
  destruct ((65 <=? nat_of_ascii c) && (nat_of_ascii c <=? 90))%nat eqn:E; [|reflexivity].
  apply andb_true_iff in E as [_ E]. apply Nat.leb_le in E.
  apply nat_ascii_embedding. lia.
Qed.

Lemma lower_char_eqb (a b : ascii) :
  Ascii.eqb (lower_char a) (lower_char b) = same_letter a b.
Proof.
  unfold same_letter.
  assert (Hnat : Ascii.eqb (lower_char a) (lower_char b)
                 = (nat_of_ascii (lower_char a) =? nat_of_ascii (lower_char b))%nat).
  { destruct (Ascii.eqb_spec (lower_char a) (lower_char b)) as [E|E].
    - rewrite E. symmetry. apply Nat.eqb_refl.
    - symmetry. apply Nat.eqb_neq. intros H. apply E. now apply nat_of_ascii_inj. }
  assert (Hab : Ascii.eqb a b = (nat_of_ascii a =? nat_of_ascii b)%nat).
  { destruct (Ascii.eqb_spec a b) as [E|E].
    - rewrite E. symmetry. apply Nat.eqb_refl.
    - symmetry. apply Nat.eqb_neq. intros H. apply E. now apply nat_of_ascii_inj. }
  rewrite Hnat, Hab, !nat_of_lower_char. unfold is_upper.
  destruct (65 <=? nat_of_ascii a)%nat eqn:A1;
    destruct (nat_of_ascii a <=? 90)%nat eqn:A2;
    destruct (65 <=? nat_of_ascii b)%nat eqn:B1;
    destruct (nat_of_ascii b <=? 90)%nat eqn:B2; cbn [andb orb];
    repeat match goal with
           | H : (_ <=? _)%nat = true |- _ => apply Nat.leb_le in H
           | H : (_ <=? _)%nat = false |- _ => apply Nat.leb_gt in H
           end;
    repeat match goal with
           | |- context [(?x =? ?y)%nat] => destruct (Nat.eqb_spec x y)
           end; cbn [andb orb]; try reflexivity; lia.
Qed.

Lemma toLowerCase_eqb (s t : string) :
  (toLowerCase s =? toLowerCase t) = eq_ci s t.
Proof.
  revert t. induction s as [|a s IH]; intros [|b t]; cbn; try reflexivity.
  rewrite lower_char_eqb, IH. reflexivity.
Qed.

Lemma trim_start_blank (s : string) : blank s = true -> trim_start s = "".
Proof.
  induction s as [|c s IH]; cbn; [reflexivity|].
  intros H. apply andb_true_iff in H as [Hc Hs]. rewrite Hc. auto.
Qed.

Lemma trim_blank (s : string) : blank s = true -> trim s = "".
Proof. intros H. unfold trim. now rewrite trim_start_blank. Qed.

Lemma split_not_nil (sep : ascii) (s : string) : split sep s <> [].
Proof.
  destruct s as [|c s]; cbn; [discriminate|].
  destruct (Ascii.eqb c sep); [discriminate|].
  destruct (split sep s); discriminate.
Qed.

(** A string without the separator is its only piece. *)
Lemma split_without_separator (sep : ascii) (s : string) :
  has_char sep s = false -> split sep s = [s].
Proof.
  induction s as [|c s IH]; cbn; [reflexivity|].
  intros H. apply orb_false_iff in H as [Hc Hs].
  rewrite Hc, (IH Hs). reflexivity.
Qed.

(** Splitting undoes joining, when no piece holds the separator. *)
Lemma split_join (sep : ascii) (pieces : list string) :
  pieces <> [] ->
  Forall (fun p => has_char sep p = false) pieces ->
  split sep (join (String sep EmptyString) pieces) = pieces.
Proof.
  induction pieces as [|p rest IH]; [congruence|].
  intros _ Hall. inversion Hall as [|? ? Hp Hrest]; subst.
  destruct rest as [|q rest'].
  - cbn. now apply split_without_separator.
  - assert (IH' : split sep (join (String sep EmptyString) (q :: rest')) = q :: rest')
      by (apply IH; [discriminate|assumption]).
    change (join (String sep EmptyString) (p :: q :: rest'))
      with (p ++ String sep EmptyString ++ join (String sep EmptyString) (q :: rest')).
    clear IH Hall Hrest. revert Hp.
    induction p as [|c p IHp]; intros Hp.
    + cbn [append split]. rewrite Ascii.eqb_refl, IH'. reflexivity.
    + cbn in Hp. apply orb_false_iff in Hp as [Hc Hp].
      cbn [append split]. rewrite Hc.
      change (String sep EmptyString ++ join (String sep EmptyString) (q :: rest'))
        with (String sep (join (String sep EmptyString) (q :: rest'))) in *.
      rewrite (IHp Hp). reflexivity.
Qed.

(** Every string is the join of its pieces, and no piece holds the
    separator: the pieces of a sort key are its [#]-separated components. *)
Lemma join_split (sep : ascii) (s : string) :
  join (String sep EmptyString) (split sep s) = s.
Proof.
  induction s as [|c s IH]; [reflexivity|].
  cbn [split]. pose proof (split_not_nil sep s) as Hne.
  destruct (Ascii.eqb_spec c sep) as [->|_];
    destruct (split sep s) as [|p ps]; try congruence.
  - change (join (String sep EmptyString) (EmptyString :: p :: ps))
      with (String sep (join (String sep EmptyString) (p :: ps))).
    now rewrite IH.
  - destruct ps as [|q ps].
    + cbn in *. now rewrite IH.
    + change (join (String sep EmptyString) (String c p :: q :: ps))
        with (String c (join (String sep EmptyString) (p :: q :: ps))).
      now rewrite IH.
Qed.

Lemma split_pieces (sep : ascii) (s : string) :
  Forall (fun piece => has_char sep piece = false) (split sep s).
Proof.
  induction s as [|c s IH]; [repeat constructor|].
  cbn [split]. destruct (Ascii.eqb c sep) eqn:E.
  - constructor; [reflexivity|assumption].
  - destruct (split sep s) as [|p ps]; [repeat constructor; cbn; now rewrite E|].
    inversion IH; subst. constructor; [cbn; now rewrite E|assumption].
Qed.

Example split_sort_key : split hash "TASK#42#x" = ["TASK"; "42"; "x"].
Proof. reflexivity. Qed.

Example split_trailing_separator : split hash "TASK#" = ["TASK"; ""].
Proof. reflexivity. Qed.

Example getTaskId_of_sort_key : getTaskId (JStr "TASK#42") = Normal (JStr "42").
Proof. reflexivity. Qed.

Example trim_spaces : trim "  buy milk  " = "buy milk" /\ trim "   " = "".
Proof. split; reflexivity. Qed.

Example toLowerCase_status : toLowerCase "Pending" = "pending".
Proof. reflexivity. Qed.

Example eq_ci_status :
  eq_ci "COMPLETED" "completed" = true /\ eq_ci "Pending" "completed" = false.
Proof. split; reflexivity. Qed.

(** ** Running the handlers *)

Lemma skipn_length_app {A} (l l' : list A) : skipn (List.length l) (l ++ l') = l'.
Proof. induction l as [|x l IH]; cbn; auto. Qed.

Ltac unfold_handlers :=
  unfold perform, onClick_complete, onClick_delete,
    createTask, updateTaskStatus, deleteTask, fetchTasks, handleSignIn,
    checkUser, getAuthToken, do_fetch,
    setLoading, setError, setTasks, setUser, setNeedsConfirmation,
    setNewTaskDescription,
    finally, try_catch, bind, ret, throw, get, modify, emit, ask, ask_bool, lift
    in *;
  cbn [fst snd] in *.

Ltac new_events :=
  unfold events_since, trace_of, state_of, result_of in *; cbn [fst snd] in *;
  repeat rewrite <- app_assoc in *;
  rewrite ?skipn_length_app in *; cbn [app] in *.

Ltac case_oracle :=
  match goal with
  | |- context [truthy (JStr (trim ?d))] =>
      destruct (truthy (JStr (trim d))) eqn:?
  | |- context [fetchAuthSession ?e ?t] =>
      destruct (fetchAuthSession e t) as [?session|?err] eqn:?
  | |- context [window_confirm ?e ?t ?q] =>
      destruct (window_confirm e t q) eqn:?
  | |- context [fetch ?e ?t ?r] =>
      destruct (fetch e t r) as [?resp|?err] eqn:?
  | |- context [negb (ok ?r)] => destruct (ok r) eqn:?
  | |- context [match json ?r with _ => _ end] =>
      destruct (json r) as [?data|?err] eqn:?
  | |- context [match get_prop ?d "Items" with _ => _ end] =>
      destruct (get_prop d "Items") as [?items|?err] eqn:?
  end; cbn [fst snd negb].

Ltac run_handler := unfold_handlers; repeat case_oracle.

Ltac leaf :=
  repeat match goal with
         | H : In _ [] |- _ => destruct H
         | H : In _ _ |- _ => destruct H as [H|H]; try discriminate
         | H : ev_fetch _ _ = ev_fetch _ _ |- _ => injection H as ? ?; subst
         | H : False |- _ => contradiction
         end;
  try congruence; try (exfalso; congruence).

(** A blank description: [createTask] of the component returns at once. *)
Lemma createTask_rejects_blank (env : Env) (s : AppState) (tr : Trace) :
  blank (newTaskDescription s) = true ->
  createTask env (s, tr) = (Normal tt, (s, (tr ++ [preventDefault])%list)).
Proof.
  intros H. unfold_handlers. rewrite (trim_blank _ H). reflexivity.
Qed.

(** The request [updateTaskStatus] sends. *)
Lemma updateTaskStatus_first_fetch (env : Env) (taskId : JSValue) (st : string)
      (s : AppState) (tr : Trace) :
  option_map url
    (first_fetch (events_since tr (updateTaskStatus env taskId st (s, tr))))
  = Some (to_string (API_ENDPOINT env) ++ "/tasks/" ++ to_string taskId).
Proof. run_handler; new_events; reflexivity. Qed.

(** The request [deleteTask] sends once the user has agreed. *)
Lemma deleteTask_first_fetch (env : Env) (taskId : JSValue)
      (s : AppState) (tr : Trace) :
  window_confirm env tr "Are you sure you want to delete this task?" = true ->
  option_map url (first_fetch (events_since tr (deleteTask env taskId (s, tr))))
  = Some (to_string (API_ENDPOINT env) ++ "/tasks/" ++ to_string taskId).
Proof.
  intros H. unfold_handlers. rewrite H. cbn [negb fst snd].
  repeat case_oracle; new_events; reflexivity.
Qed.

(** A body that is [null] is not a body without [Items]: the read throws
    and the load ends on its failure path. *)
Lemma null_body_is_unreadable :
  body_unreadable (mkResponse 200 (Normal JNull)) = true /\
  ~ lacks_field "Items" JNull.
Proof. split; [reflexivity|discriminate]. Qed.

(** ** The token provider *)

(** C1. When the call to the identity provider fails, the token provider
    does not raise: [getAuthToken] completes with [null] and the legacy
    [custom_header] with the empty header set, and neither changes the
    state, the error message included; the component's provider only logs
    the failure on the console. *)
Theorem token_refresh_failure_is_swallowed
        (env : Env) (lenv : Legacy.Env) (s : AppState) (p : Legacy.Page)
        (tr : Trace) (e e' : JSError) :
  fetchAuthSession env tr = Throw e ->
  Legacy.currentSession lenv tr = Throw e' ->
  (let r := getAuthToken env (s, tr) in
   result_of r = Normal JNull /\ state_of r = s /\
   events_since tr r
   = [ev_fetchAuthSession true (Throw e); console_error "Error getting token:" e])
  /\
  (let r := Legacy.custom_header lenv (p, tr) in
   result_of r = Normal (JObj []) /\ state_of r = p /\
   events_since tr r = [ev_currentSession (Throw e')]).
Proof.
  intros He He'. split.
  - unfold_handlers. rewrite He. cbn. new_events. auto.
  - unfold Legacy.custom_header. unfold_handlers. rewrite He'. cbn.
    new_events. auto.
Qed.

Lemma token_refresh_failure_is_swallowed_witness :
  let env := fixed_env "https://api.example.com" no_session api_up not_confirmed true in
  fetchAuthSession env [] = no_session /\
  Legacy.currentSession (legacy_env true) [] = Throw (Error "No current user") /\
  result_of (getAuthToken env (initial_state, [])) = Normal JNull /\
  result_of (Legacy.custom_header (legacy_env true) (empty_page, [])) = Normal (JObj []).
Proof.
  pose proof (token_refresh_failure_is_swallowed
                (fixed_env "https://api.example.com" no_session api_up not_confirmed true)
                (legacy_env true) initial_state empty_page []
                (mkError "NotAuthorizedException" "Refresh Token has expired")
                (Error "No current user") eq_refl eq_refl) as [[H1 _] [H2 _]].
  cbv zeta. split; [reflexivity | split; [reflexivity | split; [exact H1 | exact H2]]].
Defined.

(** A session without tokens gives an absent token as well, [undefined]. *)
Lemma getAuthToken_without_tokens (env : Env) (s : AppState) (tr : Trace) :
  fetchAuthSession env tr = Normal (mkSession None) ->
  let r := getAuthToken env (s, tr) in
  result_of r = Normal JUndefined /\ state_of r = s.
Proof. intros H. unfold_handlers. rewrite H. cbn. auto. Qed.

(** ** Signing in *)

(** C3. A sign-in that the provider answers with [isSignedIn = false] and
    the next step [CONFIRM_SIGN_UP] sets [needsConfirmation], leaves a
    non-empty error message and leaves [user] as it was: from a state
    without a user the session is pending confirmation, not authenticated. *)
Theorem unconfirmed_sign_in_awaits_confirmation
        (env : Env) (skipPrevent : bool) (s : AppState) (tr : Trace)
        (out : SignInOutput) :
  signIn env (if skipPrevent then tr else (tr ++ [preventDefault])%list)
         (email s) (password s) = Normal out ->
  isSignedIn out = false ->
  signInStep out = "CONFIRM_SIGN_UP" ->
  let r := handleSignIn env skipPrevent (s, tr) in
  result_of r = Normal tt /\
  needsConfirmation (state_of r) = true /\
  error (state_of r) <> "" /\
  user (state_of r) = user s /\
  (user s = None -> session_state (state_of r) = PendingConfirmation).
Proof.
  intros Hout Hin Hstep.
  destruct skipPrevent; unfold_handlers; cbn [negb fst snd];
    rewrite Hout; cbn [fst snd]; rewrite Hin, Hstep; cbn;
    (repeat split; [discriminate | intros Hu; unfold session_state; cbn; now rewrite Hu]).
Qed.

Lemma unconfirmed_sign_in_awaits_confirmation_witness :
  let env := fixed_env "https://api.example.com" no_session api_up not_confirmed true in
  signIn env [preventDefault] "" "" = not_confirmed /\
  session_state (state_of (handleSignIn env false (initial_state, [])))
  = PendingConfirmation.
Proof.
  split; [reflexivity|].
  apply (unconfirmed_sign_in_awaits_confirmation
           (fixed_env "https://api.example.com" no_session api_up not_confirmed true)
           false initial_state [] (mkSignInOutput false "CONFIRM_SIGN_UP")
           eq_refl eq_refl eq_refl).
  reflexivity.
Defined.

(** ** Filtering *)

Lemma array_filter_tasks (x : string) (ts : list JSValue) :
  Forall is_task ts ->
  array_filter (status_matches x) ts = Normal (List.filter (has_status x) ts).
Proof.
  induction 1 as [|t ts [st Hst] _ IH]; [reflexivity|].
  assert (Ht : status_matches x t = Normal (has_status x t)).
  { unfold status_matches, has_status. rewrite Hst. now rewrite toLowerCase_eqb. }
  cbn [array_filter List.filter]. rewrite Ht, IH. reflexivity.
Qed.

(** C4. With the criterion [all], [getFilteredTasks] is the cached list
    itself; with any other criterion [x], [pending], [completed] and
    [expired] among them, it is the list of the cached tasks whose status
    is [x] up to the case of the letters, in the cached order. *)
Theorem getFilteredTasks_filters_by_status (s : AppState) :
  (filter s = "all" -> getFilteredTasks s = Normal (tasks s)) /\
  (forall ts : list JSValue,
      tasks s = JArr ts ->
      Forall is_task ts ->
      filter s <> "all" ->
      getFilteredTasks s = Normal (JArr (List.filter (has_status (filter s)) ts))).
Proof.
  unfold getFilteredTasks. split.
  - intros Hf. rewrite Hf. reflexivity.
  - intros ts Hts Htasks Hf. apply String.eqb_neq in Hf. rewrite Hf, Hts.
    now rewrite (array_filter_tasks _ _ Htasks).
Qed.

Lemma getFilteredTasks_filters_by_status_witness :
  let s := with_tasks (JArr [a_task; done_task]) initial_state in
  Forall is_task [a_task; done_task] /\
  getFilteredTasks s = Normal (JArr [a_task; done_task]) /\
  getFilteredTasks (with_filter "completed" s) = Normal (JArr [done_task]) /\
  getFilteredTasks (with_filter "pending" s) = Normal (JArr [a_task]) /\
  getFilteredTasks (with_filter "expired" s) = Normal (JArr []).
Proof.
  assert (H : Forall is_task [a_task; done_task]).
  { repeat constructor; eexists; reflexivity. }
  cbv zeta. split; [exact H|]. split; [|split; [|split]].
  - apply (proj1 (getFilteredTasks_filters_by_status
                    (with_tasks (JArr [a_task; done_task]) initial_state))).
    reflexivity.
  - apply (proj2 (getFilteredTasks_filters_by_status
                    (with_filter "completed"
                       (with_tasks (JArr [a_task; done_task]) initial_state)))
                 [a_task; done_task] eq_refl H).
    discriminate.
  - apply (proj2 (getFilteredTasks_filters_by_status
                    (with_filter "pending"
                       (with_tasks (JArr [a_task; done_task]) initial_state)))
                 [a_task; done_task] eq_refl H).
    discriminate.
  - apply (proj2 (getFilteredTasks_filters_by_status
                    (with_filter "expired"
                       (with_tasks (JArr [a_task; done_task]) initial_state)))
                 [a_task; done_task] eq_refl H).
    discriminate.
Defined.

(** ** Creating and deleting *)

(** Rendering the list talks to nobody. *)
Lemma forEach_trace (lenv : Legacy.Env) (l : list JSValue) (w : Legacy.Page * Trace) :
  trace_of (Legacy.forEach l w) = snd w.
Proof.
  revert w. induction l as [|task l IH]; intros w; [reflexivity|].
  cbn [Legacy.forEach]. unfold Legacy.display_one. unfold_handlers.
  destruct (get_prop task "Status"); cbn; [|reflexivity].
  rewrite IH. reflexivity.
Qed.

Lemma displayTasks_trace (lenv : Legacy.Env) (v : JSValue) (w : Legacy.Page * Trace) :
  trace_of (Legacy.displayTasks v w) = snd w.
Proof.
  unfold Legacy.displayTasks. unfold_handlers.
  destruct (Legacy.js_length v) as [len|e]; cbn; [|reflexivity].
  assert (H : trace_of
                (match v with
                 | JArr l => Legacy.forEach l
                 | _ => fun w : Legacy.Page * Trace =>
                          (Throw (TypeError "tasks.forEach is not a function"), w)
                 end (Legacy.with_task_list (Legacy.mkTaskList "" []) (fst w), snd w))
              = snd w).
  { destruct v; try reflexivity. now rewrite (forEach_trace lenv). }
  destruct len as [| | |n| | |]; try exact H.
  destruct n; try exact H. reflexivity.
Qed.

(** The legacy [fetchTasks] only adds to the trace. *)
Lemma legacy_fetchTasks_extends (lenv : Legacy.Env) (w : Legacy.Page * Trace) :
  exists rest, trace_of (Legacy.fetchTasks lenv w) = (snd w ++ rest)%list.
Proof.
  unfold Legacy.fetchTasks, Legacy.call_API. unfold_handlers.
  destruct (Legacy.API lenv (snd w) "GET" "/tasks" None) as [v|e]; cbn [fst snd].
  - match goal with
    | |- context [Legacy.displayTasks v ?w'] =>
        pose proof (displayTasks_trace lenv v w') as H; revert H;
        destruct (Legacy.displayTasks v w') as [[u|e] [p' t']]; intros H
    end; unfold trace_of in *; cbn [fst snd] in *; subst t'.
    + eexists. reflexivity.
    + rewrite <- app_assoc. eexists. reflexivity.
  - unfold trace_of. cbn. rewrite <- app_assoc. eexists. reflexivity.
Qed.

(** C5. On the legacy page a description of three spaces passes the guard
    [if (!description) return]: [createTask] posts it to the task API. The
    component's [createTask] trims first and returns
    ([createTask_rejects_blank]). *)
Theorem legacy_createTask_posts_blank_description
        (lenv : Legacy.Env) (list : Legacy.TaskListEl) (tr : Trace) :
  let r := Legacy.createTask lenv (Legacy.mkPage "   " list, tr) in
  blank "   " = true /\
  ~ no_network_call (events_since tr r) /\
  exists res rest,
    events_since tr r
    = ev_API "POST" "/tasks" (Some (JObj [("Description", JStr "   ")])) res :: rest.
Proof.
  cbv zeta. split; [reflexivity|].
  assert (H : exists res rest,
             events_since tr (Legacy.createTask lenv (Legacy.mkPage "   " list, tr))
             = ev_API "POST" "/tasks" (Some (JObj [("Description", JStr "   ")])) res
                      :: rest).
  { unfold Legacy.createTask, Legacy.call_API. unfold_handlers.
    cbn [Legacy.task_description truthy String.eqb Ascii.eqb Bool.eqb negb].
    cbn [fst snd].
    match goal with
    | |- context [Legacy.API lenv tr ?a ?b ?c] =>
        destruct (Legacy.API lenv tr a b c) as [v|e]
    end; cbn [fst snd].
    - match goal with
      | |- context [Legacy.fetchTasks lenv ?w] =>
          destruct (legacy_fetchTasks_extends lenv w) as [rest H]; revert H;
          destruct (Legacy.fetchTasks lenv w) as [[u|e] [p' t']]; intros H
      end; unfold trace_of in H; cbn [fst snd] in H; subst t'; new_events.
      + eexists _, _. reflexivity.
      + eexists _, _. reflexivity.
    - new_events. eexists _, _. reflexivity. }
  split; [|exact H].
  destruct H as (res & rest & H). rewrite H. intros Hall.
  inversion Hall; subst. discriminate.
Qed.

(** C6. When the user declines the confirmation prompt, [deleteTask]
    returns at once, in the component and on the legacy page: the prompt
    is its only interaction, no network call is made, and the state (cached
    list, loading flag, error message and all the rest) is unchanged. *)
Theorem declined_delete_changes_nothing
        (env : Env) (lenv : Legacy.Env) (taskId : JSValue)
        (s : AppState) (p : Legacy.Page) (tr : Trace) :
  window_confirm env tr "Are you sure you want to delete this task?" = false ->
  Legacy.confirm lenv tr "Are you sure you want to delete this task?" = false ->
  (let r := deleteTask env taskId (s, tr) in
   result_of r = Normal tt /\ state_of r = s /\
   events_since tr r = [ev_confirm "Are you sure you want to delete this task?" false] /\
   no_network_call (events_since tr r))
  /\
  (let r := Legacy.deleteTask lenv taskId (p, tr) in
   result_of r = Normal tt /\ state_of r = p /\
   events_since tr r = [ev_confirm "Are you sure you want to delete this task?" false] /\
   no_network_call (events_since tr r)).
Proof.
  intros H H'. split.
  - unfold_handlers. rewrite H. cbn [negb fst snd]. new_events.
    repeat split. repeat constructor.
  - unfold Legacy.deleteTask. unfold_handlers. rewrite H'. cbn [negb fst snd].
    new_events. repeat split. repeat constructor.
Qed.

Lemma declined_delete_changes_nothing_witness :
  let env := fixed_env "https://api.example.com" a_session api_up not_confirmed false in
  let s := with_tasks (JArr [a_task]) initial_state in
  window_confirm env [] "Are you sure you want to delete this task?" = false /\
  Legacy.confirm (legacy_env false) [] "Are you sure you want to delete this task?" = false /\
  state_of (deleteTask env (JStr "42") (s, [])) = s /\
  no_network_call (events_since [] (deleteTask env (JStr "42") (s, []))) /\
  no_network_call
    (events_since [] (Legacy.deleteTask (legacy_env false) (JStr "42") (empty_page, []))).
Proof.
  pose proof (declined_delete_changes_nothing
                (fixed_env "https://api.example.com" a_session api_up not_confirmed false)
                (legacy_env false) (JStr "42")
                (with_tasks (JArr [a_task]) initial_state) empty_page []
                eq_refl eq_refl) as [(_ & H1 & _ & H2) (_ & _ & _ & H3)].
  cbv zeta. split; [reflexivity | split; [reflexivity | split; [exact H1 | split; [exact H2 | exact H3]]]].
Defined.

(** ** The task id *)

(** C8. The id of a task is the second of the pieces of its sort key
    between the [#] separators: for a key made by joining pieces with [#],
    [getTaskId] is [pieces[1]], and it is the last segment of the path of
    the requests that the Complete and Delete buttons send. *)
Theorem getTaskId_is_second_component
        (env : Env) (task : JSValue) (pieces : list string)
        (s : AppState) (tr : Trace) :
  pieces <> [] ->
  Forall (fun piece => has_char hash piece = false) pieces ->
  get_prop task "SK" = Normal (JStr (join "#" pieces)) ->
  window_confirm env tr "Are you sure you want to delete this task?" = true ->
  getTaskId (JStr (join "#" pieces)) = Normal (index (split hash (join "#" pieces)) 1) /\
  split hash (join "#" pieces) = pieces /\
  getTaskId (JStr (join "#" pieces)) = Normal (index pieces 1) /\
  option_map url (first_fetch (events_since tr (onClick_complete env task (s, tr))))
  = Some (to_string (API_ENDPOINT env) ++ "/tasks/" ++ to_string (index pieces 1)) /\
  option_map url (first_fetch (events_since tr (onClick_delete env task (s, tr))))
  = Some (to_string (API_ENDPOINT env) ++ "/tasks/" ++ to_string (index pieces 1)).
Proof.
  intros Hne Hall Hsk Hyes.
  assert (Hid : getTaskId (JStr (join "#" pieces)) = Normal (index pieces 1)).
  { unfold getTaskId, hash. now rewrite (split_join "#"%char pieces Hne Hall). }
  split; [reflexivity|].
  split; [exact (split_join "#"%char pieces Hne Hall)|].
  split; [exact Hid|]. split.
  - unfold onClick_complete, lift, bind. rewrite Hsk, Hid.
    apply updateTaskStatus_first_fetch.
  - unfold onClick_delete, lift, bind. rewrite Hsk, Hid.
    now apply deleteTask_first_fetch.
Qed.

Lemma getTaskId_is_second_component_witness :
  let env := fixed_env "https://api.example.com" a_session api_up not_confirmed true in
  get_prop a_task "SK" = Normal (JStr (join "#" ["TASK"; "42"])) /\
  getTaskId (JStr "TASK#42") = Normal (JStr "42") /\
  option_map url (first_fetch (events_since [] (onClick_delete env a_task (initial_state, []))))
  = Some "https://api.example.com/tasks/42".
Proof.
  assert (Hall : Forall (fun piece => has_char hash piece = false) ["TASK"; "42"])
    by (repeat constructor).
  assert (Hne : ["TASK"; "42"] <> []) by discriminate.
  pose proof (getTaskId_is_second_component
                (fixed_env "https://api.example.com" a_session api_up not_confirmed true)
                a_task ["TASK"; "42"] initial_state [] Hne Hall eq_refl eq_refl)
    as (_ & _ & H1 & _ & H2).
  cbv zeta. split; [reflexivity | split; [exact H1 | exact H2]].
Defined.

(** C9. A sort key without [#] has no second piece: [getTaskId] completes
    with [undefined], it does not throw, and the requests of the Complete
    and Delete buttons go to the path that ends in the text [undefined]. *)
Theorem getTaskId_without_separator_is_undefined
        (env : Env) (task : JSValue) (sk : string) (s : AppState) (tr : Trace) :
  has_char hash sk = false ->
  get_prop task "SK" = Normal (JStr sk) ->
  window_confirm env tr "Are you sure you want to delete this task?" = true ->
  getTaskId (JStr sk) = Normal JUndefined /\
  option_map url (first_fetch (events_since tr (onClick_complete env task (s, tr))))
  = Some (to_string (API_ENDPOINT env) ++ "/tasks/undefined") /\
  option_map url (first_fetch (events_since tr (onClick_delete env task (s, tr))))
  = Some (to_string (API_ENDPOINT env) ++ "/tasks/undefined").
Proof.
  intros Hno Hsk Hyes.
  assert (Hid : getTaskId (JStr sk) = Normal JUndefined).
  { unfold getTaskId. now rewrite (split_without_separator hash sk Hno). }
  split; [exact Hid|]. split.
  - unfold onClick_complete, lift, bind. rewrite Hsk, Hid.
    apply updateTaskStatus_first_fetch.
  - unfold onClick_delete, lift, bind. rewrite Hsk, Hid.
    now apply deleteTask_first_fetch.
Qed.

Lemma getTaskId_without_separator_is_undefined_witness :
  let env := fixed_env "https://api.example.com" a_session api_up not_confirmed true in
  let task := JObj [("SK", JStr "TASK-42"); ("Status", JStr "Pending")] in
  has_char hash "TASK-42" = false /\
  getTaskId (JStr "TASK-42") = Normal JUndefined /\
  option_map url (first_fetch (events_since [] (onClick_delete env task (initial_state, []))))
  = Some "https://api.example.com/tasks/undefined".
Proof.
  pose proof (getTaskId_without_separator_is_undefined
                (fixed_env "https://api.example.com" a_session api_up not_confirmed true)
                (JObj [("SK", JStr "TASK-42"); ("Status", JStr "Pending")])
                "TASK-42" initial_state [] eq_refl eq_refl eq_refl)
    as (H1 & _ & H2).
  cbv zeta. split; [reflexivity | split; [exact H1 | exact H2]].
Defined.

(** ** Loading and changing the list *)



(** C7, as the specification states it, fails: a response of status 404
    and one of status 500 leave the same completion and the same state, so
    nothing that results from the failure carries the status code. *)
Lemma status_code_is_not_carried :
  let env404 := fixed_env "https://api.example.com" a_session (api_status 404)
                          not_confirmed true in
  let env500 := fixed_env "https://api.example.com" a_session (api_status 500)
                          not_confirmed true in
  let r404 := fetchTasks env404 (initial_state, []) in
  let r500 := fetchTasks env500 (initial_state, []) in
  In (ev_fetch (mkRequest "GET" "https://api.example.com/tasks"
                          [("Authorization", JStr "eyJraWQ")] None)
               (api_status 404 (mkRequest "" "" [] None)))
     (events_since [] r404) /\
  In (ev_fetch (mkRequest "GET" "https://api.example.com/tasks"
                          [("Authorization", JStr "eyJraWQ")] None)
               (api_status 500 (mkRequest "" "" [] None)))
     (events_since [] r500) /\
  result_of r404 = result_of r500 /\
  state_of r404 = state_of r500 /\
  error (state_of r404) = "Failed to fetch tasks".
Proof.
  cbv zeta. split; [right; left; reflexivity|].
  split; [right; left; reflexivity|].
  repeat split.
Qed.

(** What a rejected request leaves, for one run. *)
Lemma rejected_request_outcome
      (env : Env) (op : Operation) (s : AppState) (tr : Trace)
      (req : Request) (res : Completion Response) :
  let r := perform env op (s, tr) in
  In (ev_fetch req res) (events_since tr r) ->
  rejected res ->
  result_of r = Normal tt /\
  state_of r = after_failure op req (recorded_message req res) s.
Proof.
  intros r Hin Hrej. subst r. revert Hin. unfold after_failure.
  destruct op; run_handler; new_events; intros Hin; leaf.
  all: cbn in *; try congruence; auto.
Qed.

Lemma after_failure_method (op : Operation) (req req' : Request) (msg : string)
      (s : AppState) :
  method req = method req' ->
  after_failure op req msg s = after_failure op req' msg s.
Proof. intros H. unfold after_failure. now rewrite H. Qed.

(** C7, amended. Whatever the operation, a request that is answered with
    a status outside 2xx, or that [fetch] rejects, ends it normally and
    leaves the state before the operation with the loading flag cleared,
    the description input cleared when the request is the reload of a
    [createTask], and one message as the error: the fixed message of the
    request ([Failed to fetch tasks], [Failed to create task], [Failed to
    update task], [Failed to delete task]) for a status outside 2xx, the
    message of the rejection otherwise. No cell holds the status code or
    anything else of the response. Two such failures of one operation, at
    requests of the same method and with the same message, leave the same
    completion and the same state, whatever the two statuses and whether
    either is a status or a rejection: only the text of the message tells
    them apart. *)
Theorem failed_request_records_only_a_message
        (env env' : Env) (op : Operation) (s : AppState) (tr tr' : Trace)
        (req req' : Request) (res res' : Completion Response) :
  let r := perform env op (s, tr) in
  let r' := perform env' op (s, tr') in
  In (ev_fetch req res) (events_since tr r) ->
  rejected res ->
  In (ev_fetch req' res') (events_since tr' r') ->
  rejected res' ->
  result_of r = Normal tt /\
  state_of r = after_failure op req (recorded_message req res) s /\
  error (state_of r) = recorded_message req res /\
  (method req = method req' ->
   recorded_message req res = recorded_message req' res' ->
   result_of r' = result_of r /\ state_of r' = state_of r).
Proof.
  intros r r' Hin Hrej Hin' Hrej'.
  destruct (rejected_request_outcome env op s tr req res Hin Hrej) as [Hres Hst].
  destruct (rejected_request_outcome env' op s tr' req' res' Hin' Hrej') as [Hres' Hst'].
  fold r in Hres, Hst. fold r' in Hres', Hst'.
  split; [exact Hres|]. split; [exact Hst|]. split.
  - rewrite Hst. unfold after_failure. reflexivity.
  - intros Hm Hmsg. split; [congruence|].
    rewrite Hst, Hst', <- Hmsg. symmetry. now apply after_failure_method.
Qed.

Lemma failed_request_records_only_a_message_witness :
  let env := fixed_env "https://api.example.com" a_session (api_status 500)
                       not_confirmed true in
  let env' := fixed_env "https://api.example.com" a_session (api_status 404)
                        not_confirmed true in
  let req := mkRequest "PUT" "https://api.example.com/tasks/42"
                       [("Authorization", JStr "eyJraWQ");
                        ("Content-Type", JStr "application/json")]
                       (Some (JObj [("Status", JStr "Completed")])) in
  let s := with_tasks (JArr [a_task]) initial_state in
  let r := perform env (SetStatus (JStr "42") "Completed") (s, []) in
  let r' := perform env' (SetStatus (JStr "42") "Completed") (s, []) in
  In (ev_fetch req (api_status 500 req)) (events_since [] r) /\
  rejected (api_status 500 req) /\
  In (ev_fetch req (api_status 404 req)) (events_since [] r') /\
  state_of r = with_error "Failed to update task" s /\
  state_of r' = state_of r.
Proof.
  pose proof (failed_request_records_only_a_message
                (fixed_env "https://api.example.com" a_session (api_status 500)
                           not_confirmed true)
                (fixed_env "https://api.example.com" a_session (api_status 404)
                           not_confirmed true)
                (SetStatus (JStr "42") "Completed")
                (with_tasks (JArr [a_task]) initial_state) [] []
                (mkRequest "PUT" "https://api.example.com/tasks/42"
                           [("Authorization", JStr "eyJraWQ");
                            ("Content-Type", JStr "application/json")]
                           (Some (JObj [("Status", JStr "Completed")])))
                (mkRequest "PUT" "https://api.example.com/tasks/42"
                           [("Authorization", JStr "eyJraWQ");
                            ("Content-Type", JStr "application/json")]
                           (Some (JObj [("Status", JStr "Completed")])))
                (api_status 500 (mkRequest "" "" [] None))
                (api_status 404 (mkRequest "" "" [] None))
                (or_intror (or_introl eq_refl)) eq_refl
                (or_intror (or_introl eq_refl)) eq_refl) as (_ & H1 & _ & H2).
  cbv zeta. split; [right; left; reflexivity|]. split; [reflexivity|].
  split; [right; left; reflexivity|]. split; [exact H1|].
  exact (proj2 (H2 eq_refl eq_refl)).
Defined.

(** C2, as the specification states it, fails twice. With no token and a
    task API that answers all the same, [updateTaskStatus] replaces the
    cached list; and when the reload after a successful [createTask] is
    rejected, the description input has been cleared, so more than the
    error message and the loading flag has changed. *)
Lemma failed_mutation_counterexample :
  (let env := fixed_env "https://api.example.com" no_session api_up not_confirmed true in
   let r := perform env (SetStatus (JStr "42") "Completed") (initial_state, []) in
   existsb token_absent (events_since [] r) = true /\
   tasks (state_of r) <> tasks initial_state)
  /\
  (let env := fixed_env "https://api.example.com" a_session api_down_for_reload
                        not_confirmed true in
   let s := with_newTaskDescription "buy milk" initial_state in
   let r := perform env Create (s, []) in
   existsb failed_fetch (events_since [] r) = true /\
   tasks (state_of r) = tasks s /\
   ~ only_error_and_loading_change s (state_of r)).
Proof.
  cbv zeta. split; [split; [reflexivity | discriminate]|].
  split; [reflexivity | split; [reflexivity | discriminate]].
Qed.

(** C2, amended. Whatever the operation, it completes normally, it
    writes none of the session and form cells, and each of its token
    refreshes, whatever it gave, is followed by a request that carries
    what it gave as its [Authorization] header: an absent token is no
    failure, the request is sent with it. What the operation leaves is
    decided by the answers to its requests alone. If one of them fails
    ([fetch] rejects, the status is not 2xx, or the body of the reload
    cannot be used), the cached list after the operation is the list
    before it, the loading flag is cleared, the error is the message of
    that failure, and the description input is as before, except that it
    is cleared when the POST of [createTask] had been accepted before the
    reload failed. If none fails, either no request was made and the state
    is untouched, or the last request is the reload and the cached list is
    what it loaded, with no error. *)
Theorem failed_request_keeps_cached_tasks
        (env : Env) (op : Operation) (s : AppState) (tr : Trace) :
  let r := perform env op (s, tr) in
  let evs := events_since tr r in
  result_of r = Normal tt /\
  same_session_and_form s (state_of r) /\
  each_refresh_is_used None evs /\
  (existsb failed_fetch evs = true ->
   tasks (state_of r) = tasks s /\
   loading (state_of r) = false /\
   option_map failure_text (last_fetch evs) = Some (error (state_of r)) /\
   newTaskDescription (state_of r)
   = if create_accepted op evs then "" else newTaskDescription s) /\
  (existsb failed_fetch evs = false ->
   match last_fetch evs with
   | None => state_of r = s
   | Some (req, res) =>
       method req = "GET" /\
       loaded_items res = Some (tasks (state_of r)) /\
       error (state_of r) = "" /\
       loading (state_of r) = false /\
       newTaskDescription (state_of r)
       = match op with Create => "" | _ => newTaskDescription s end
   end).
Proof.
  cbv zeta. unfold same_session_and_form, last_fetch, create_accepted.
  destruct op; run_handler; new_events;
    cbn [existsb failed_fetch orb fetches map List.last option_map failure_text
         loaded_items accepted fst snd method each_refresh_is_used token_of
         headers assoc String.eqb Ascii.eqb Bool.eqb].
  all: unfold body_unreadable;
    repeat match goal with
           | H : ok _ = _ |- _ => rewrite H
           | H : json _ = _ |- _ => rewrite H
           | H : get_prop _ "Items" = _ |- _ => rewrite H
           end;
    cbn [negb orb andb String.eqb Ascii.eqb Bool.eqb].
  all: repeat split; try discriminate; auto; intros Hcase; try discriminate Hcase;
    cbn; repeat split; auto.
Qed.

Lemma failed_request_keeps_cached_tasks_witness :
  let env := fixed_env "https://api.example.com" no_session api_down_for_reload
                       not_confirmed true in
  let s := with_newTaskDescription "buy milk"
             (with_tasks (JArr [a_task; done_task]) initial_state) in
  let r := perform env Create (s, []) in
  existsb failed_fetch (events_since [] r) = true /\
  tasks (state_of r) = JArr [a_task; done_task] /\
  error (state_of r) = "Failed to fetch" /\
  newTaskDescription (state_of r) = "".
Proof.
  pose proof (failed_request_keeps_cached_tasks
                (fixed_env "https://api.example.com" no_session api_down_for_reload
                           not_confirmed true)
                Create
                (with_newTaskDescription "buy milk"
                   (with_tasks (JArr [a_task; done_task]) initial_state)) [])
    as (_ & _ & _ & H & _).
  destruct (H eq_refl) as (H1 & _ & _ & H3).
  cbv zeta. split; [reflexivity|]. split; [exact H1|].
  split; [reflexivity | exact H3].
Defined.

(** ** The task handlers as a whole *)

Ltac case_more :=
  match goal with
  | |- context [getCurrentUser ?e ?t] =>
      destruct (getCurrentUser e t) as [?usr|?err] eqn:?
  | |- context [signIn ?e ?t ?u ?p] =>
      destruct (signIn e t u p) as [?out|?err] eqn:?
  end; cbn [fst snd negb].

Ltac run_all := unfold_handlers; repeat first [case_oracle | case_more].

(** X1. No exception leaves a task handler: each of the four completes
    normally whatever the provider and the API answer. It writes none of
    the session and form cells, and it ends with the loading flag cleared
    unless it returned at its guard with the state untouched. *)
Theorem task_handlers_never_throw
        (env : Env) (op : Operation) (s : AppState) (tr : Trace) :
  let r := perform env op (s, tr) in
  result_of r = Normal tt /\
  same_session_and_form s (state_of r) /\
  (state_of r = s \/ loading (state_of r) = false).
Proof.
  cbv zeta. unfold same_session_and_form.
  destruct op; run_handler; new_events; cbn; auto 12.
Qed.

(** X2. An operation makes at most two requests: the one it is for, and,
    exactly when that one is answered with a 2xx status, one reload of the
    list with GET. A load makes one request. No request at all means the
    handler returned at its guard (blank description, declined prompt) and
    the state is untouched. *)
Theorem one_request_then_one_reload
        (env : Env) (op : Operation) (s : AppState) (tr : Trace) :
  let r := perform env op (s, tr) in
  match fetches (events_since tr r) with
  | [] => state_of r = s /\ (op = Create \/ exists taskId, op = Remove taskId)
  | [(req, res)] => method req = verb op /\ (op = Load \/ accepted res = false)
  | [(req, res); (reload, _)] =>
      op <> Load /\ method req = verb op /\ accepted res = true /\
      method reload = "GET"
  | _ => False
  end.
Proof.
  cbv zeta.
  destruct op; run_handler; new_events; cbn [fetches method verb accepted];
    repeat match goal with H : ok _ = _ |- _ => rewrite H end;
    repeat split; eauto; discriminate.
Qed.

(** X3. Every request is sent after a token refresh of its own and carries
    what that refresh gave, the id token or [null] when the refresh failed,
    as its [Authorization] header: no token is reused for a second request
    and no request goes out without a refresh before it. *)
Theorem every_request_carries_a_fresh_token
        (env : Env) (op : Operation) (s : AppState) (tr : Trace) :
  tokens_attached None (events_since tr (perform env op (s, tr))).
Proof.
  destruct op; run_handler; new_events;
    cbn [tokens_attached token_of headers assoc String.eqb Ascii.eqb Bool.eqb];
    repeat split; auto; discriminate.
Qed.

(** X4. Whenever a GET of an operation is answered with a 2xx status and a
    body whose [Items] can be read, the cache ends as [Items || []] and
    the error message is empty: an [Items] that is truthy becomes the
    cached list as it is. *)
Theorem reload_replaces_cache
        (env : Env) (op : Operation) (s : AppState) (tr : Trace)
        (req : Request) (resp : Response) (data items : JSValue) :
  let r := perform env op (s, tr) in
  In (ev_fetch req (Normal resp)) (events_since tr r) ->
  method req = "GET" ->
  ok resp = true ->
  json resp = Normal data ->
  get_prop data "Items" = Normal items ->
  tasks (state_of r) = js_or items (JArr []) /\
  (truthy items = true -> tasks (state_of r) = items) /\
  error (state_of r) = "" /\
  loading (state_of r) = false.
Proof.
  intros r Hin Hget Hok Hjson Hitems. subst r.
  assert (Hor : truthy items = true -> js_or items (JArr []) = items)
    by (intros Ht; unfold js_or; now rewrite Ht).
  revert Hin.
  destruct op; run_handler; new_events; intros Hin; leaf.
  all: try (cbn in Hget; discriminate Hget).
  all: assert (items0 = items) by congruence; subst; cbn; auto.
Qed.

Lemma reload_replaces_cache_witness :
  let env := fixed_env "https://api.example.com" a_session api_up not_confirmed true in
  let r := perform env (Remove (JStr "7")) (initial_state, []) in
  In (ev_fetch (mkRequest "GET" "https://api.example.com/tasks"
                          [("Authorization", JStr "eyJraWQ")] None)
               (Normal (mkResponse 200 (Normal (JObj [("Items", JArr [a_task])])))))
     (events_since [] r) /\
  tasks (state_of r) = JArr [a_task].
Proof.
  pose proof (reload_replaces_cache
                (fixed_env "https://api.example.com" a_session api_up not_confirmed true)
                (Remove (JStr "7")) initial_state []
                (mkRequest "GET" "https://api.example.com/tasks"
                           [("Authorization", JStr "eyJraWQ")] None)
                (mkResponse 200 (Normal (JObj [("Items", JArr [a_task])])))
                (JObj [("Items", JArr [a_task])]) (JArr [a_task])
                (or_intror (or_intror (or_intror (or_intror (or_introl eq_refl)))))
                eq_refl eq_refl eq_refl eq_refl) as (_ & H & _).
  cbv zeta. split; [do 4 right; left; reflexivity | exact (H eq_refl)].
Defined.

(** ** Creating a task *)

Lemma trim_start_cases (s : string) :
  (trim_start s = "" /\ blank s = true) \/
  (exists c t, trim_start s = String c t /\ is_white c = false).
Proof.
  induction s as [|c s IH]; [left; split; reflexivity|].
  cbn. destruct (is_white c) eqn:Hc.
  - destruct IH as [[H1 H2]|H]; [left; now split | right; exact H].
  - right. exists c, s. now split.
Qed.

Lemma trim_end_not_white (c : ascii) (t : string) :
  is_white c = false -> trim_end (String c t) <> "".
Proof.
  intros Hc. cbn. destruct (trim_end t); [rewrite Hc|]; discriminate.
Qed.

(** Only a blank string trims to nothing. *)
Lemma trim_empty_blank (s : string) : trim s = "" -> blank s = true.
Proof.
  unfold trim. destruct (trim_start_cases s) as [[_ H]|(c & t & Hs & Hc)]; [auto|].
  rewrite Hs. intros H. now apply trim_end_not_white in H.
Qed.

(** X5. A description of ASCII characters that is not blank is posted as
    it was typed, white space at its ends included: only the guard trims.
    The input is cleared exactly when the POST is answered with a 2xx
    status, whatever the reload does after it. (Beyond ASCII, [trim] of
    JavaScript removes more white space than the one above, so the
    statement stops at ASCII.) *)
Theorem createTask_posts_description_as_typed
        (env : Env) (s : AppState) (tr : Trace) :
  ascii_only (newTaskDescription s) = true ->
  blank (newTaskDescription s) = false ->
  let r := createTask env (s, tr) in
  exists token res,
    hd_error (fetches (events_since tr r))
    = Some (mkRequest "POST" (to_string (API_ENDPOINT env) ++ "/tasks")
                      [("Authorization", token);
                       ("Content-Type", JStr "application/json")]
                      (Some (JObj [("Description", JStr (newTaskDescription s))])),
            res) /\
    newTaskDescription (state_of r)
    = if accepted res then "" else newTaskDescription s.
Proof.
  intros _ Hb r. subst r.
  assert (Ht : truthy (JStr (trim (newTaskDescription s))) = true).
  { cbn. destruct (trim (newTaskDescription s) =? "") eqn:E; [|reflexivity].
    apply String.eqb_eq, trim_empty_blank in E. congruence. }
  unfold_handlers. rewrite Ht. cbn [negb fst snd].
  repeat case_oracle; new_events; cbn [fetches hd_error];
    eexists _, _; (split; [reflexivity|]); cbn [accepted];
    repeat match goal with H : ok _ = _ |- _ => rewrite H end; reflexivity.
Qed.

Lemma createTask_posts_description_as_typed_witness :
  let env := fixed_env "https://api.example.com" a_session api_up not_confirmed true in
  let s := with_newTaskDescription "  buy milk " initial_state in
  ascii_only "  buy milk " = true /\
  blank "  buy milk " = false /\
  exists token res,
    hd_error (fetches (events_since [] (createTask env (s, []))))
    = Some (mkRequest "POST" "https://api.example.com/tasks"
                      [("Authorization", token);
                       ("Content-Type", JStr "application/json")]
                      (Some (JObj [("Description", JStr "  buy milk ")])),
            res).
Proof.
  cbv zeta. split; [reflexivity|]. split; [reflexivity|].
  destruct (createTask_posts_description_as_typed
              (fixed_env "https://api.example.com" a_session api_up not_confirmed true)
              (with_newTaskDescription "  buy milk " initial_state) [] eq_refl eq_refl)
    as (token & res & H & _).
  exists token, res. exact H.
Defined.

(** ** The filtered view and the counters *)

Lemma is_taskb_spec (t : JSValue) : is_taskb t = true <-> is_task t.
Proof.
  unfold is_taskb, is_task. split.
  - destruct (get_prop t "Status") as [[]|]; try discriminate. eauto.
  - intros [st H]. now rewrite H.
Qed.

Lemma forallb_is_taskb (ts : list JSValue) :
  forallb is_taskb ts = true <-> Forall is_task ts.
Proof.
  rewrite forallb_forall, Forall_forall.
  split; intros H t Ht; apply is_taskb_spec; auto.
Qed.

Lemma status_matches_not_task (x : string) (t : JSValue) :
  is_taskb t = false -> exists e, status_matches x t = Throw e.
Proof.
  unfold is_taskb, status_matches.
  destruct (get_prop t "Status") as [[]|]; try discriminate; eauto.
Qed.

Lemma array_filter_throws (x : string) (ts : list JSValue) :
  forallb is_taskb ts = false ->
  exists e, array_filter (status_matches x) ts = Throw e.
Proof.
  induction ts as [|t ts IH]; [discriminate|].
  cbn [forallb array_filter]. destruct (is_taskb t) eqn:Ht; cbn [andb]; intros H.
  - destruct (status_matches x t); [|eauto].
    destruct (IH H) as [e He]. rewrite He. eauto.
  - destruct (status_matches_not_task x t Ht) as [e He]. rewrite He. eauto.
Qed.

Lemma getFilteredTasks_throws_iff_malformed_aux (s : AppState) (ts : list JSValue) :
  tasks s = JArr ts ->
  filter s <> "all" ->
  ((exists e, getFilteredTasks s = Throw e) <-> forallb is_taskb ts = false).
Proof.
  intros Hts Hf. unfold getFilteredTasks.
  apply String.eqb_neq in Hf. rewrite Hf, Hts. split.
  - intros [e He]. destruct (forallb is_taskb ts) eqn:Hall; [|reflexivity].
    apply forallb_is_taskb in Hall.
    rewrite (array_filter_tasks _ _ Hall) in He. discriminate.
  - intros Hall. destruct (array_filter_throws (filter s) ts Hall) as [e He].
    rewrite He. eauto.
Qed.

(** X6. With a criterion other than [all], [getFilteredTasks] throws
    exactly when some element of the cached array has no string [Status];
    with [all] it never throws. One malformed task anywhere in the list
    breaks every filtered view, while the unfiltered view still shows. *)
Theorem getFilteredTasks_throws_iff_malformed (s : AppState) (ts : list JSValue) :
  tasks s = JArr ts ->
  (filter s = "all" -> getFilteredTasks s = Normal (tasks s)) /\
  (filter s <> "all" ->
   ((exists e, getFilteredTasks s = Throw e) <-> forallb is_taskb ts = false)).
Proof.
  intros Hts. split; intros Hf.
  - unfold getFilteredTasks. now rewrite Hf.
  - now apply getFilteredTasks_throws_iff_malformed_aux.
Qed.

Lemma getFilteredTasks_throws_iff_malformed_witness :
  let s := with_filter "pending"
             (with_tasks (JArr [a_task; JObj [("SK", JStr "TASK#9")]]) initial_state) in
  forallb is_taskb [a_task; JObj [("SK", JStr "TASK#9")]] = false /\
  exists e, getFilteredTasks s = Throw e.
Proof.
  cbv zeta. split; [reflexivity|].
  apply (proj2 (getFilteredTasks_throws_iff_malformed
                  (with_filter "pending"
                     (with_tasks (JArr [a_task; JObj [("SK", JStr "TASK#9")]])
                                 initial_state))
                  [a_task; JObj [("SK", JStr "TASK#9")]] eq_refl)).
  - discriminate.
  - reflexivity.
Defined.

Lemma eq_ci_lower (a b : string) :
  eq_ci a b = true <-> toLowerCase a = toLowerCase b.
Proof. rewrite <- toLowerCase_eqb. apply String.eqb_eq. Qed.

Lemma getFilteredTasks_view (s : AppState) (ts view : list JSValue) :
  tasks s = JArr ts ->
  Forall is_task ts ->
  filter s <> "all" ->
  getFilteredTasks s = Normal (JArr view) ->
  view = List.filter (has_status (filter s)) ts.
Proof.
  intros Hts Hall Hf. unfold getFilteredTasks.
  apply String.eqb_neq in Hf. rewrite Hf, Hts, (array_filter_tasks _ _ Hall).
  congruence.
Qed.

(** X7. The views of two different criteria of the filter buttons share
    no task: a task is listed under at most one of [pending], [completed]
    and [expired]. *)
Theorem filtered_views_are_disjoint
        (s : AppState) (x y : string) (ts vx vy : list JSValue) :
  tasks s = JArr ts ->
  Forall is_task ts ->
  In x criteria -> In y criteria ->
  x <> y ->
  getFilteredTasks (with_filter x s) = Normal (JArr vx) ->
  getFilteredTasks (with_filter y s) = Normal (JArr vy) ->
  forall t, In t vx -> ~ In t vy.
Proof.
  intros Hts Hall Hcx Hcy Hne Hvx Hvy t Hin Hin'.
  assert (Hx : x <> "all")
    by (unfold criteria in Hcx; cbn in Hcx; intuition (subst; discriminate)).
  assert (Hy : y <> "all")
    by (unfold criteria in Hcy; cbn in Hcy; intuition (subst; discriminate)).
  assert (Hxy : eq_ci x y = false).
  { unfold criteria in Hcx, Hcy. cbn in Hcx, Hcy.
    destruct Hcx as [<-|[<-|[<-|[]]]]; destruct Hcy as [<-|[<-|[<-|[]]]];
      try reflexivity; congruence. }
  apply (getFilteredTasks_view (with_filter x s) ts vx Hts Hall Hx) in Hvx.
  apply (getFilteredTasks_view (with_filter y s) ts vy Hts Hall Hy) in Hvy.
  subst vx vy. cbn [filter with_filter] in *.
  apply filter_In in Hin as [_ H1]. apply filter_In in Hin' as [_ H2].
  unfold has_status in *. destruct (get_prop t "Status") as [[]|]; try discriminate.
  apply eq_ci_lower in H1. apply eq_ci_lower in H2.
  assert (H : eq_ci x y = true) by (apply eq_ci_lower; congruence).
  congruence.
Qed.

Lemma filtered_views_are_disjoint_witness :
  let s := with_tasks (JArr [a_task; done_task]) initial_state in
  In "pending" criteria /\ In "completed" criteria /\
  getFilteredTasks (with_filter "pending" s) = Normal (JArr [a_task]) /\
  getFilteredTasks (with_filter "completed" s) = Normal (JArr [done_task]) /\
  forall t, In t [a_task] -> ~ In t [done_task].
Proof.
  assert (H : Forall is_task [a_task; done_task]).
  { repeat constructor; eexists; reflexivity. }
  cbv zeta. split; [left; reflexivity|]. split; [right; left; reflexivity|].
  split; [reflexivity|]. split; [reflexivity|].
  apply (filtered_views_are_disjoint
           (with_tasks (JArr [a_task; done_task]) initial_state)
           "pending" "completed" [a_task; done_task] [a_task] [done_task]
           eq_refl H (or_introl eq_refl) (or_intror (or_introl eq_refl)));
    try discriminate; reflexivity.
Defined.

Lemma array_filter_status_is (label : string) (ts : list JSValue) :
  Forall (fun t => t <> JNull /\ t <> JUndefined) ts ->
  array_filter (status_is label) ts
  = Normal (List.filter
              (fun t => match get_prop t "Status" with
                        | Normal (JStr st) => st =? label
                        | _ => false
                        end) ts).
Proof.
  induction 1 as [|t ts [Hn Hu] _ IH]; [reflexivity|].
  assert (Ht : status_is label t
               = Normal (match get_prop t "Status" with
                         | Normal (JStr st) => st =? label
                         | _ => false
                         end)).
  { unfold status_is. destruct t; try congruence; cbn; try reflexivity.
    destruct (assoc "Status" fields) as [[]|]; reflexivity. }
  cbn [array_filter List.filter]. rewrite Ht, IH. reflexivity.
Qed.

Lemma filter_length_le {A} (p q : A -> bool) (l : list A) :
  (forall a, In a l -> p a = true -> q a = true) ->
  List.length (List.filter p l) <= List.length (List.filter q l).
Proof.
  induction l as [|a l IH]; intros H; [auto|].
  cbn [List.filter].
  assert (IH' : List.length (List.filter p l) <= List.length (List.filter q l))
    by (apply IH; intros; apply H; [right|]; assumption).
  destruct (p a) eqn:Hp.
  - rewrite (H a (or_introl eq_refl) Hp). cbn. lia.
  - destruct (q a); cbn; lia.
Qed.

(** X8. The counter on a filter button compares [Status] with the label
    exactly, the view compares it up to case. On a cached array without
    [null] elements the counter does not throw, a task without a string
    status is simply not counted; and it never exceeds the number of tasks
    that the view of the matching criterion lists, when that view exists. *)
Theorem counter_is_at_most_the_view
        (s : AppState) (label : string) (ts : list JSValue) :
  tasks s = JArr ts ->
  Forall (fun t => t <> JNull /\ t <> JUndefined) ts ->
  exists n,
    count_status label s = Normal n /\
    forall x view,
      x <> "all" ->
      eq_ci label x = true ->
      getFilteredTasks (with_filter x s) = Normal (JArr view) ->
      n <= List.length view.
Proof.
  intros Hts Hnn. unfold count_status. rewrite Hts, (array_filter_status_is _ _ Hnn).
  eexists. split; [reflexivity|]. intros x view Hx Hci Hview.
  assert (Hall : Forall is_task ts).
  { apply forallb_is_taskb. destruct (forallb is_taskb ts) eqn:E; [reflexivity|].
    destruct (proj2 (getFilteredTasks_throws_iff_malformed_aux (with_filter x s) ts Hts Hx) E)
      as [e He]. congruence. }
  apply (getFilteredTasks_view (with_filter x s) ts view Hts Hall Hx) in Hview.
  subst view. cbn [filter with_filter].
  apply filter_length_le. intros t _ Ht. unfold has_status.
  destruct (get_prop t "Status") as [[]|]; try discriminate.
  apply String.eqb_eq in Ht. now subst.
Qed.

Lemma counter_is_at_most_the_view_witness :
  let s := with_tasks (JArr [a_task; done_task]) initial_state in
  Forall (fun t => t <> JNull /\ t <> JUndefined) [a_task; done_task] /\
  getFilteredTasks (with_filter "completed" s) = Normal (JArr [done_task]) /\
  count_status "Completed" s = Normal 0 /\
  exists n, count_status "Completed" s = Normal n.
Proof.
  assert (H : Forall (fun t => t <> JNull /\ t <> JUndefined) [a_task; done_task]).
  { repeat constructor; discriminate. }
  cbv zeta. split; [exact H|]. split; [reflexivity|]. split; [reflexivity|].
  destruct (counter_is_at_most_the_view
              (with_tasks (JArr [a_task; done_task]) initial_state)
              "Completed" [a_task; done_task] eq_refl H) as (n & Hn & _).
  exists n. exact Hn.
Defined.

(** ** Signing in, all outcomes *)

Lemma message_or_not_empty (err : JSError) (fallback : string) :
  fallback <> "" -> message_or err fallback <> "".
Proof.
  intros Hf. unfold message_or.
  destruct (err_message err =? "") eqn:E; [exact Hf|].
  now apply String.eqb_neq in E.
Qed.

(** X9. [handleSignIn] never throws, ends with the loading flag cleared
    and writes neither the cached list nor the inputs of the forms, the
    confirmation code included. When the provider reports [isSignedIn],
    the error message is empty, [needsConfirmation] is as before and
    [user] is what [getCurrentUser] then gives, [null] when that call
    fails, in which case the sign-in form shows again with no message. In
    every other case [user] is left as it was and the error message is not
    empty: the message about the unconfirmed account, with
    [needsConfirmation] set, for the next step [CONFIRM_SIGN_UP]; the
    message that the sign-in is incomplete for any other step; the message
    of the rejection, or the fixed text when it has none, for a rejected
    call; [needsConfirmation] is as before in the last two. *)
Theorem handleSignIn_outcomes
        (env : Env) (skipPrevent : bool) (s : AppState) (tr : Trace) :
  let asked := if skipPrevent then tr else (tr ++ [preventDefault])%list in
  let answer := signIn env asked (email s) (password s) in
  let r := handleSignIn env skipPrevent (s, tr) in
  result_of r = Normal tt /\
  loading (state_of r) = false /\
  same_tasks_and_form s (state_of r) /\
  confirmationCode (state_of r) = confirmationCode s /\
  match answer with
  | Normal out =>
      if isSignedIn out then
        error (state_of r) = "" /\
        needsConfirmation (state_of r) = needsConfirmation s /\
        user (state_of r)
        = match getCurrentUser env
                  (asked ++ [ev_signIn (email s) (password s) answer;
                             console_log "Sign in result:"])%list with
          | Normal u => Some u
          | Throw _ => None
          end
      else
        user (state_of r) = user s /\ error (state_of r) <> "" /\
        if signInStep out =? "CONFIRM_SIGN_UP" then
          needsConfirmation (state_of r) = true /\
          error (state_of r)
          = "Your account is not confirmed. Please enter the confirmation code sent to your email."
        else
          needsConfirmation (state_of r) = needsConfirmation s /\
          error (state_of r) = "Sign in incomplete. Please try again."
  | Throw e =>
      user (state_of r) = user s /\ error (state_of r) <> "" /\
      needsConfirmation (state_of r) = needsConfirmation s /\
      error (state_of r)
      = message_or e "Failed to sign in. Please check your credentials."
  end.
Proof.
  cbv zeta. unfold same_tasks_and_form.
  destruct skipPrevent; unfold_handlers; cbn [negb fst snd];
    (destruct (signIn env _ (email s) (password s)) as [out|e] eqn:Hans;
     cbn [fst snd];
     [ destruct (isSignedIn out) eqn:Hin; cbn [fst snd];
       [ repeat rewrite <- app_assoc; cbn [app];
         match goal with
         | |- context [getCurrentUser env ?t] => destruct (getCurrentUser env t)
         end; cbn; auto 12
       | destruct (signInStep out =? "CONFIRM_SIGN_UP"); cbn;
         repeat split; discriminate ]
     | cbn; repeat split; apply message_or_not_empty; discriminate ]).
Qed.

(** X10. The effect on [user] talks to the network exactly when a user
    with a non-empty [userId] is set: without one it does nothing at all,
    and with one it is a load of the list. *)
Theorem useEffect_loads_only_for_a_user (env : Env) (s : AppState) (tr : Trace) :
  let r := useEffect_user env (s, tr) in
  (truthy (userId_of (user s)) = false ->
   r = (Normal tt, (s, tr)) /\ no_network_call (events_since tr r)) /\
  (truthy (userId_of (user s)) = true ->
   r = fetchTasks env (s, tr) /\ ~ no_network_call (events_since tr r)).
Proof.
  cbv zeta. unfold useEffect_user. split; intros Hu.
  - unfold bind, get. cbn [fst snd]. rewrite Hu. unfold ret.
    split; [reflexivity|]. unfold events_since, trace_of. cbn [snd].
    rewrite <- (app_nil_r tr) at 2. rewrite skipn_length_app. constructor.
  - unfold bind, get. cbn [fst snd]. rewrite Hu. split; [reflexivity|].
    run_handler; new_events; intros Hall; inversion Hall; subst; discriminate.
Qed.

Lemma useEffect_loads_only_for_a_user_witness :
  let env := fixed_env "https://api.example.com" a_session api_up not_confirmed true in
  let s := with_user (Some (mkUser "ann@example.com" "")) initial_state in
  truthy (userId_of (user s)) = false /\
  useEffect_user env (s, []) = (Normal tt, (s, [])).
Proof.
  cbv zeta. split; [reflexivity|].
  apply (proj1 (useEffect_loads_only_for_a_user
                  (fixed_env "https://api.example.com" a_session api_up not_confirmed true)
                  (with_user (Some (mkUser "ann@example.com" "")) initial_state) [])).
  reflexivity.
Defined.

(** ** Signing up, confirming, signing out *)

Ltac unfold_flow :=
  unfold onSubmit, handleSignUp, handleSignOut, call_handler, Flow.call,
    Flow.finally, Flow.try_catch, Flow.bind, Flow.ret, Flow.get, Flow.modify,
    Flow.emit, Flow.ask in *;
  cbn [fst snd] in *.

Ltac new_history :=
  unfold history_since, final_state, outcome in *; cbn [fst snd] in *;
  repeat rewrite <- app_assoc in *;
  rewrite ?skipn_length_app in *; cbn [app map] in *.

(** X11. [handleSignUp] on the sign-up form never throws, ends with the
    loading flag cleared and makes one call, [signUp], followed by
    [getCurrentUser] only when the sign-up is complete; it never calls
    [signIn]. A sign-up that must be confirmed sets [needsConfirmation]
    with the message that a code has been sent; a rejected sign-up leaves a
    non-empty error message; an incomplete sign-up with any other next
    step changes nothing and shows no message. *)
Theorem handleSignUp_sign_up_outcomes (p : Provider) (s : AppState) (h : History) :
  needsConfirmation s = false ->
  let asked := (h ++ [inl preventDefault])%list in
  let answer := signUp p asked (email s) (password s) in
  let r := handleSignUp p (s, h) in
  outcome r = Normal tt /\
  loading (final_state r) = false /\
  same_tasks_and_form s (final_state r) /\
  confirmationCode (final_state r) = confirmationCode s /\
  match answer with
  | Normal out =>
      if isSignUpComplete out then
        provider_calls (history_since h r) = [CallSignUp; CallGetCurrentUser] /\
        error (final_state r) = "" /\ needsConfirmation (final_state r) = false
      else
        provider_calls (history_since h r) = [CallSignUp] /\
        user (final_state r) = user s /\
        if signUpStep out =? "CONFIRM_SIGN_UP" then
          needsConfirmation (final_state r) = true /\
          error (final_state r) = "A confirmation code has been sent to your email."
        else
          needsConfirmation (final_state r) = false /\ error (final_state r) = ""
  | Throw e =>
      provider_calls (history_since h r) = [CallSignUp] /\
      user (final_state r) = user s /\
      needsConfirmation (final_state r) = false /\
      error (final_state r) <> ""
  end.
Proof.
  intros Hn. cbv zeta. unfold same_tasks_and_form.
  unfold_flow. rewrite Hn.
  destruct (signUp p _ (email s) (password s)) as [out|e]; cbn [fst snd].
  - destruct (isSignUpComplete out); cbn [fst snd].
    + unfold_handlers.
      match goal with
      | |- context [getCurrentUser ?e ?t] => destruct (getCurrentUser e t)
      end; cbn [fst snd]; new_history; cbn; rewrite ?Hn; auto 12.
    + destruct (signUpStep out =? "CONFIRM_SIGN_UP"); cbn [fst snd];
        new_history; cbn; rewrite ?Hn; auto 12.
  - new_history. cbn. rewrite ?Hn. repeat split.
    apply message_or_not_empty. discriminate.
Qed.

Lemma handleSignUp_sign_up_outcomes_witness :
  let p := fixed_provider
             (fixed_env "https://api.example.com" no_session api_up not_confirmed true)
             must_confirm code_mismatch (Normal tt) in
  let s := with_isSignUp true initial_state in
  needsConfirmation s = false /\
  session_state (final_state (handleSignUp p (s, []))) = PendingConfirmation /\
  provider_calls (history_since [] (handleSignUp p (s, []))) = [CallSignUp].
Proof.
  pose proof (handleSignUp_sign_up_outcomes
                (fixed_provider
                   (fixed_env "https://api.example.com" no_session api_up
                              not_confirmed true)
                   must_confirm code_mismatch (Normal tt))
                (with_isSignUp true initial_state) [] eq_refl)
    as (_ & _ & _ & _ & H & _).
  cbv zeta. split; [reflexivity | split; [reflexivity | exact H]].
Defined.

(** What [handleSignIn] keeps and how its trace starts, for its callers. *)
Lemma handleSignIn_frame (env : Env) (skipPrevent : bool) (s : AppState) :
  let r := handleSignIn env skipPrevent (s, []) in
  result_of r = Normal tt /\
  loading (state_of r) = false /\
  same_tasks_and_form s (state_of r) /\
  confirmationCode (state_of r) = confirmationCode s /\
  exists rest, provider_calls (map inl (trace_of r)) = CallSignIn :: rest.
Proof.
  cbv zeta. unfold same_tasks_and_form, result_of, state_of, trace_of.
  destruct skipPrevent; unfold_handlers; cbn [negb fst snd];
    (destruct (signIn env _ (email s) (password s)) as [out|e]; cbn [fst snd];
     [destruct (isSignedIn out); cbn [fst snd];
      [ match goal with
        | |- context [getCurrentUser env ?t] => destruct (getCurrentUser env t)
        end
      | destruct (signInStep out =? "CONFIRM_SIGN_UP") ] |];
     cbn; repeat split; eauto).
Qed.

(** How the history of [handleSignUp] starts, for its callers. *)
Lemma handleSignUp_first_call (p : Provider) (s : AppState) (h : History) :
  exists rest,
    provider_calls (history_since h (handleSignUp p (s, h)))
    = (if needsConfirmation s then CallConfirmSignUp else CallSignUp) :: rest.
Proof.
  unfold_flow. destruct (needsConfirmation s).
  - destruct (confirmSignUp p _ (email s) (confirmationCode s)) as [out|e];
      cbn [fst snd]; [destruct (isSignUpComplete out); cbn [fst snd]|].
    + match goal with
      | |- context [handleSignIn ?e true ?w] =>
          destruct (handleSignIn e true w) as [[u|e'] [s2 t2]]
      end; cbn [fst snd]; new_history; cbn; eauto.
    + new_history. cbn. eauto.
    + new_history. cbn. eauto.
  - destruct (signUp p _ (email s) (password s)) as [out|e];
      cbn [fst snd]; [destruct (isSignUpComplete out); cbn [fst snd]|].
    + match goal with
      | |- context [checkUser ?e ?w] =>
          destruct (checkUser e w) as [[u|e'] [s2 t2]]
      end; cbn [fst snd]; new_history; cbn; eauto.
    + destruct (signUpStep out =? "CONFIRM_SIGN_UP"); cbn [fst snd];
        new_history; cbn; eauto.
    + new_history. cbn. eauto.
Qed.

(** X12. [handleSignUp] on the confirmation form never throws and ends
    with the loading flag cleared. When the provider completes the
    confirmation, the code is cleared and the handler goes on as
    [handleSignIn] with the e-mail and password still in the form, without
    a second [preventDefault]; its state is the one that sign-in leaves.
    When the confirmation is incomplete or rejected, no sign-in is tried:
    the form stays on the confirmation step with the code as typed and a
    non-empty error message. *)
Theorem handleSignUp_confirmation_outcomes (p : Provider) (s : AppState) (h : History) :
  needsConfirmation s = true ->
  let asked := (h ++ [inl preventDefault])%list in
  let answer := confirmSignUp p asked (email s) (confirmationCode s) in
  let r := handleSignUp p (s, h) in
  outcome r = Normal tt /\
  loading (final_state r) = false /\
  same_tasks_and_form s (final_state r) /\
  match answer with
  | Normal out =>
      if isSignUpComplete out then
        let h' := (h ++ [inl preventDefault;
                         inr (ev_confirmSignUp (email s) (confirmationCode s) answer);
                         inl (console_log "Confirmation result:")])%list in
        let signed :=
          handleSignIn (handlers_env p h') true
            (with_confirmationCode ""
               (with_needsConfirmation false (with_loading true (with_error "" s))),
             []) in
        final_state r = with_loading false (state_of signed) /\
        confirmationCode (final_state r) = "" /\
        exists rest,
          provider_calls (history_since h r)
          = CallConfirmSignUp :: CallSignIn :: rest
      else
        provider_calls (history_since h r) = [CallConfirmSignUp] /\
        needsConfirmation (final_state r) = true /\
        user (final_state r) = user s /\
        confirmationCode (final_state r) = confirmationCode s /\
        error (final_state r) = "Confirmation failed, please try again."
  | Throw e =>
      provider_calls (history_since h r) = [CallConfirmSignUp] /\
      needsConfirmation (final_state r) = true /\
      user (final_state r) = user s /\
      confirmationCode (final_state r) = confirmationCode s /\
      error (final_state r) <> ""
  end.
Proof.
  intros Hn. cbv zeta. unfold same_tasks_and_form.
  unfold_flow. rewrite Hn.
  destruct (confirmSignUp p _ (email s) (confirmationCode s)) as [out|e] eqn:Hans;
    cbn [fst snd].
  - destruct (isSignUpComplete out); cbn [fst snd].
    + repeat rewrite <- app_assoc. cbn [app].
      match goal with
      | |- context [handleSignIn ?e true ?w] =>
          pose proof (handleSignIn_frame e true (fst w)) as Hframe;
          cbv zeta in Hframe; cbn [fst] in Hframe;
          unfold result_of, state_of, trace_of, same_tasks_and_form in Hframe;
          revert Hframe;
          destruct (handleSignIn e true w) as [res [s2 t2]]
      end.
      cbn [fst snd]. intros (Hres & Hload & Hsame & Hcode & rest & Hcalls).
      subst res. cbn [fst snd]. new_history. cbn in Hsame, Hcode |- *.
      rewrite Hcalls. intuition eauto.
    + new_history. cbn. rewrite ?Hn. auto 12.
  - new_history. cbn. rewrite ?Hn. repeat split.
    apply message_or_not_empty. discriminate.
Qed.

Lemma handleSignUp_confirmation_outcomes_witness :
  let p := fixed_provider
             (fixed_env "https://api.example.com" no_session api_up not_confirmed true)
             must_confirm code_mismatch (Normal tt) in
  let s := with_confirmationCode "123456" (with_needsConfirmation true initial_state) in
  needsConfirmation s = true /\
  session_state (final_state (handleSignUp p (s, []))) = PendingConfirmation /\
  provider_calls (history_since [] (handleSignUp p (s, []))) = [CallConfirmSignUp].
Proof.
  pose proof (handleSignUp_confirmation_outcomes
                (fixed_provider
                   (fixed_env "https://api.example.com" no_session api_up
                              not_confirmed true)
                   must_confirm code_mismatch (Normal tt))
                (with_confirmationCode "123456"
                   (with_needsConfirmation true initial_state)) [] eq_refl)
    as (_ & _ & _ & H & _).
  cbv zeta. split; [reflexivity | split; [reflexivity | exact H]].
Defined.

(** X13. [handleSignOut] never throws. When the provider signs out, [user]
    becomes [null] and the cached list is emptied, and nothing else
    changes, the error message included. When the provider rejects, the
    user stays signed in with the cached list as it was, and only the
    error message is set, to the message of the rejection. *)
Theorem handleSignOut_outcomes (p : Provider) (s : AppState) (h : History) :
  let r := handleSignOut p (s, h) in
  outcome r = Normal tt /\
  history_since h r = [inr (ev_signOut (signOut p h))] /\
  final_state r
  = match signOut p h with
    | Normal _ => with_tasks (JArr []) (with_user None s)
    | Throw e => with_error (err_message e) s
    end.
Proof.
  cbv zeta. unfold_flow. destruct (signOut p h); cbn [fst snd]; new_history; auto.
Qed.

Lemma submit_first_call (p : Provider) (s : AppState) (h : History) :
  hd_error (provider_calls (history_since h (onSubmit p (s, h))))
  = Some (if needsConfirmation s then CallConfirmSignUp
          else if isSignUp s then CallSignUp
          else CallSignIn).
Proof.
  unfold onSubmit, Flow.bind, Flow.get. cbn [fst snd].
  destruct (needsConfirmation s) eqn:Hn.
  - destruct (handleSignUp_first_call p s h) as [rest H].
    rewrite Hn in H. now rewrite H.
  - destruct (isSignUp s).
    + destruct (handleSignUp_first_call p s h) as [rest H].
      rewrite Hn in H. now rewrite H.
    + unfold call_handler, Flow.call. cbn [fst snd].
      unfold history_since. cbn [snd]. rewrite skipn_length_app.
      destruct (handleSignIn_frame (handlers_env p h) false s)
        as (_ & _ & _ & _ & rest & H).
      unfold trace_of in H. now rewrite H.
Qed.

(** X14. A submit of the authentication form starts with the call that
    the visible form stands for: the confirmation while [needsConfirmation]
    is set, whatever [isSignUp] says; else the sign-up on the sign-up
    form and the sign-in on the sign-in form. *)
Theorem onSubmit_first_call (p : Provider) (s : AppState) (h : History) :
  hd_error (provider_calls (history_since h (onSubmit p (s, h))))
  = Some (if needsConfirmation s then CallConfirmSignUp
          else if isSignUp s then CallSignUp
          else CallSignIn).
Proof.
  unfold onSubmit, Flow.bind, Flow.get. cbn [fst snd].
  destruct (needsConfirmation s) eqn:Hn.
  - destruct (handleSignUp_first_call p s h) as [rest H].
    rewrite Hn in H. now rewrite H.
  - destruct (isSignUp s).
    + destruct (handleSignUp_first_call p s h) as [rest H].
      rewrite Hn in H. now rewrite H.
    + unfold call_handler, Flow.call. cbn [fst snd].
      unfold history_since. cbn [snd]. rewrite skipn_length_app.
      destruct (handleSignIn_frame (handlers_env p h) false s)
        as (_ & _ & _ & _ & rest & H).
      unfold trace_of in H. now rewrite H.
Qed.

(** ** The legacy list *)

Lemma forEach_appends (ts : list JSValue) (p : Legacy.Page) (tr : Trace) :
  Forall (fun t => t <> JNull /\ t <> JUndefined) ts ->
  Legacy.forEach ts (p, tr)
  = (Normal tt,
     (Legacy.with_task_list
        (Legacy.mkTaskList (Legacy.innerHTML (Legacy.task_list p))
                           (Legacy.children (Legacy.task_list p) ++ ts)%list) p,
      tr)).
Proof.
  intros H. revert p. induction H as [|t ts [Hn Hu] _ IH]; intros p.
  - cbn. rewrite app_nil_r. now destruct p as [d [html items]].
  - cbn [Legacy.forEach]. unfold Legacy.display_one. unfold_handlers.
    assert (Hs : exists v, get_prop t "Status" = Normal v).
    { destruct t; try congruence; cbn; eauto.
      destruct (assoc "Status" fields); eauto. }
    destruct Hs as [v Hv]. rewrite Hv. cbn [fst snd]. rewrite IH.
    cbn. now rewrite <- app_assoc.
Qed.

Lemma displayTasks_array (ts : list JSValue) (p : Legacy.Page) (tr : Trace) :
  Forall (fun t => t <> JNull /\ t <> JUndefined) ts ->
  Legacy.displayTasks (JArr ts) (p, tr)
  = (Normal tt, (Legacy.with_task_list (listing ts) p, tr)).
Proof.
  intros H. unfold Legacy.displayTasks. unfold_handlers. cbn [Legacy.js_length].
  destruct ts as [|t ts]; [reflexivity|].
  cbn [List.length Z.of_nat]. rewrite (forEach_appends _ _ _ H). reflexivity.
Qed.

(** X15. [displayTasks] on an array without [null] elements clears the
    list and shows the tasks, one item each, in the order of the array;
    on the empty array it shows the paragraph that no tasks were found. It
    completes normally and talks to nobody. *)
Theorem displayTasks_lists_the_tasks
        (ts : list JSValue) (p : Legacy.Page) (tr : Trace) :
  Forall (fun t => t <> JNull /\ t <> JUndefined) ts ->
  Legacy.displayTasks (JArr ts) (p, tr)
  = (Normal tt, (Legacy.with_task_list (listing ts) p, tr)).
Proof.
  intros H. unfold Legacy.displayTasks. unfold_handlers. cbn [Legacy.js_length].
  destruct ts as [|t ts]; [reflexivity|].
  cbn [List.length Z.of_nat]. rewrite (forEach_appends _ _ _ H). reflexivity.
Qed.

Lemma displayTasks_lists_the_tasks_witness :
  Forall (fun t => t <> JNull /\ t <> JUndefined) [a_task; done_task] /\
  Legacy.task_list (state_of (Legacy.displayTasks (JArr [a_task; done_task]) (empty_page, [])))
  = Legacy.mkTaskList "" [a_task; done_task].
Proof.
  assert (H : Forall (fun t => t <> JNull /\ t <> JUndefined) [a_task; done_task]).
  { repeat constructor; discriminate. }
  split; [exact H|].
  exact (f_equal (fun r => Legacy.task_list (state_of r))
                 (displayTasks_lists_the_tasks [a_task; done_task] empty_page [] H)).
Defined.

Lemma forEach_description (l : list JSValue) (w : Legacy.Page * Trace) :
  Legacy.task_description (state_of (Legacy.forEach l w))
  = Legacy.task_description (fst w).
Proof.
  revert w. induction l as [|task l IH]; intros w; [reflexivity|].
  cbn [Legacy.forEach]. unfold Legacy.display_one. unfold_handlers.
  destruct (get_prop task "Status"); cbn [fst snd]; [|reflexivity].
  unfold state_of in *. rewrite IH. reflexivity.
Qed.

(** [displayTasks] writes the list only. *)
Lemma displayTasks_description (v : JSValue) (w : Legacy.Page * Trace) :
  Legacy.task_description (state_of (Legacy.displayTasks v w))
  = Legacy.task_description (fst w).
Proof.
  unfold Legacy.displayTasks. unfold_handlers.
  destruct (Legacy.js_length v) as [len|e]; cbn [fst snd]; [|reflexivity].
  assert (H : Legacy.task_description
                (state_of
                   (match v with
                    | JArr l => Legacy.forEach l
                    | _ => fun w : Legacy.Page * Trace =>
                             (Throw (TypeError "tasks.forEach is not a function"), w)
                    end (Legacy.with_task_list (Legacy.mkTaskList "" []) (fst w), snd w)))
              = Legacy.task_description (fst w)).
  { destruct v; try reflexivity. now rewrite forEach_description. }
  destruct len as [| | |n| | |]; try exact H.
  destruct n; try exact H. reflexivity.
Qed.

(** The legacy [fetchTasks] catches all that its body throws. *)
Lemma legacy_fetchTasks_normal (lenv : Legacy.Env) (w : Legacy.Page * Trace) :
  result_of (Legacy.fetchTasks lenv w) = Normal tt.
Proof.
  unfold Legacy.fetchTasks, Legacy.call_API, result_of. unfold_handlers.
  destruct (Legacy.API lenv (snd w) "GET" "/tasks" None) as [v|e]; cbn [fst snd];
    [|reflexivity].
  match goal with
  | |- context [Legacy.displayTasks v ?w'] =>
      destruct (Legacy.displayTasks v w') as [[[]|e] [p' t']]
  end; reflexivity.
Qed.

(** X16. The legacy [fetchTasks] never throws and never writes the
    description input. A rejected call puts the error paragraph with the
    message of the rejection in place of the list. An array answer is
    listed. An object answer without a [length], such as the
    [{ Items: [...] }] document that the component reads, is not listed:
    the paragraph says that [tasks.forEach] is not a function. *)
Theorem legacy_fetchTasks_outcomes
        (lenv : Legacy.Env) (p : Legacy.Page) (tr : Trace) :
  let answer := Legacy.API lenv tr "GET" "/tasks" None in
  let r := Legacy.fetchTasks lenv (p, tr) in
  result_of r = Normal tt /\
  Legacy.task_description (state_of r) = Legacy.task_description p /\
  match answer with
  | Throw e =>
      Legacy.task_list (state_of r) = error_paragraph (err_message e) /\
      events_since tr r
      = [ev_API "GET" "/tasks" None answer; console_error "Error fetching tasks:" e]
  | Normal (JArr ts) =>
      Forall (fun t => t <> JNull /\ t <> JUndefined) ts ->
      Legacy.task_list (state_of r) = listing ts /\
      events_since tr r = [ev_API "GET" "/tasks" None answer]
  | Normal (JObj fields) =>
      assoc "length" fields = None ->
      Legacy.task_list (state_of r) = error_paragraph "tasks.forEach is not a function"
  | Normal _ => True
  end.
Proof.
  cbv zeta. split; [apply legacy_fetchTasks_normal|].
  unfold Legacy.fetchTasks, Legacy.call_API. unfold_handlers.
  destruct (Legacy.API lenv tr "GET" "/tasks" None) as [v|e]; cbn [fst snd].
  - split.
    + pose proof (displayTasks_description v) as Hd.
      match goal with
      | |- context [Legacy.displayTasks v ?w'] =>
          specialize (Hd w'); revert Hd;
          destruct (Legacy.displayTasks v w') as [[[]|e] [p' t']]
      end; cbn; auto.
    + destruct v; auto.
      * intros Hnn. rewrite (displayTasks_array _ _ _ Hnn).
        cbn [fst snd]. new_events. auto.
      * intros Hlen. unfold Legacy.displayTasks. unfold_handlers.
        cbn [Legacy.js_length get_prop]. rewrite Hlen. reflexivity.
  - new_events. auto.
Qed.

Lemma legacy_fetchTasks_outcomes_witness :
  let lenv := Legacy.mkEnv (fun _ => Normal "eyJraWQ")
                           (fun _ _ _ _ => Normal (JObj [("Items", JArr [a_task])]))
                           (fun _ _ => true) in
  assoc "length" [("Items", JArr [a_task])] = None /\
  Legacy.task_list (state_of (Legacy.fetchTasks lenv (empty_page, [])))
  = error_paragraph "tasks.forEach is not a function".
Proof.
  pose proof (legacy_fetchTasks_outcomes
                (Legacy.mkEnv (fun _ => Normal "eyJraWQ")
                              (fun _ _ _ _ => Normal (JObj [("Items", JArr [a_task])]))
                              (fun _ _ => true))
                empty_page []) as (_ & _ & H).
  cbv zeta. split; [reflexivity | exact (H eq_refl)].
Defined.

(** ** The legacy changes *)

(** X17. A legacy change that goes ahead (a non-empty description, any
    update, a deletion the user agreed to), for a task id that a template
    literal prints as [to_string] does (a string, or a number that is a
    safe integer), makes one call of [API]. When
    the call is rejected the page is left exactly as it was, input and
    list included: the failure only goes to the console and nothing is
    refreshed. When it is accepted, the rest of the change is the refresh
    [fetchTasks], on the page with the input cleared for a new task. *)
Theorem legacy_change_outcomes
        (lenv : Legacy.Env) (c : LegacyPage.Change) (p : Legacy.Page) (tr : Trace) :
  match c with
  | LegacyPage.NewTask => Legacy.task_description p <> ""
  | LegacyPage.UpdateTask taskId _ => exactly_printed taskId = true
  | LegacyPage.DeleteTask taskId =>
      exactly_printed taskId = true /\
      Legacy.confirm lenv tr "Are you sure you want to delete this task?" = true
  end ->
  let asked := (tr ++ LegacyPage.change_prompt c)%list in
  let call := ev_API (fst (fst (LegacyPage.change_call p c)))
                     (snd (fst (LegacyPage.change_call p c)))
                     (snd (LegacyPage.change_call p c)) in
  let answer := Legacy.API lenv asked (fst (fst (LegacyPage.change_call p c)))
                           (snd (fst (LegacyPage.change_call p c)))
                           (snd (LegacyPage.change_call p c)) in
  LegacyPage.change lenv c (p, tr)
  = match answer with
    | Throw e =>
        (Normal tt,
         (p, (asked ++ [call answer; console_error (LegacyPage.change_label c) e])%list))
    | Normal _ =>
        Legacy.fetchTasks lenv
          (LegacyPage.after_accepted c p, (asked ++ [call answer])%list)
    end.
Proof.
  intros Hgo. cbv zeta.
  assert (Hrun : forall w,
             (let (c0, w') := Legacy.fetchTasks lenv w in
              match c0 with
              | Normal a => (Normal a, w')
              | Throw e => (Normal tt, (fst w', (snd w' ++ [console_error (LegacyPage.change_label c) e])%list))
              end) = Legacy.fetchTasks lenv w).
  { intros w. pose proof (legacy_fetchTasks_normal lenv w) as H. unfold result_of in H.
    destruct (Legacy.fetchTasks lenv w) as [res w']. cbn in H. now subst. }
  destruct c as [|taskId status|taskId]; cbn [LegacyPage.change LegacyPage.change_call
    LegacyPage.change_prompt LegacyPage.change_label LegacyPage.after_accepted fst snd] in *.
  - unfold Legacy.createTask, Legacy.call_API. unfold_handlers.
    assert (Ht : truthy (JStr (Legacy.task_description p)) = true).
    { cbn. destruct (Legacy.task_description p =? "") eqn:E; [|reflexivity].
      apply String.eqb_eq in E. contradiction. }
    rewrite Ht. cbn [negb fst snd]. rewrite app_nil_r.
    destruct (Legacy.API lenv tr "POST" "/tasks" _) as [v|e]; cbn [fst snd].
    + apply Hrun.
    + now rewrite <- app_assoc.
  - unfold LegacyPage.updateTask, Legacy.call_API. unfold_handlers. rewrite app_nil_r.
    destruct (Legacy.API lenv tr "PUT" _ _) as [v|e]; cbn [fst snd].
    + apply Hrun.
    + now rewrite <- app_assoc.
  - destruct Hgo as [_ Hgo].
    unfold Legacy.deleteTask, Legacy.call_API. unfold_handlers. rewrite Hgo.
    cbn [negb fst snd].
    destruct (Legacy.API lenv _ "DELETE" _ _) as [v|e]; cbn [fst snd].
    + apply Hrun.
    + now rewrite <- app_assoc.
Qed.

Lemma legacy_change_outcomes_witness :
  let lenv := Legacy.mkEnv (fun _ => Normal "eyJraWQ")
                           (fun _ _ _ _ => Throw (Error "Network Error"))
                           (fun _ _ => true) in
  let p := Legacy.mkPage "call mum" (Legacy.mkTaskList "" [a_task]) in
  Legacy.task_description p <> "" /\
  exactly_printed (JNum 42) = true /\
  state_of (LegacyPage.change lenv LegacyPage.NewTask (p, [])) = p /\
  LegacyPage.change lenv (LegacyPage.UpdateTask (JNum 42) "Completed") (p, [])
  = (Normal tt,
     (p, [ev_API "PUT" "/tasks/42" (Some (JObj [("Status", JStr "Completed")]))
                 (Throw (Error "Network Error"));
          console_error "Error updating task:" (Error "Network Error")])).
Proof.
  assert (H : Legacy.task_description
                (Legacy.mkPage "call mum" (Legacy.mkTaskList "" [a_task])) <> "")
    by discriminate.
  cbv zeta. split; [exact H|]. split; [reflexivity|]. split.
  - exact (f_equal (fun r => state_of r)
             (legacy_change_outcomes
                (Legacy.mkEnv (fun _ => Normal "eyJraWQ")
                              (fun _ _ _ _ => Throw (Error "Network Error"))
                              (fun _ _ => true))
                LegacyPage.NewTask
                (Legacy.mkPage "call mum" (Legacy.mkTaskList "" [a_task])) [] H)).
  - exact (legacy_change_outcomes
             (Legacy.mkEnv (fun _ => Normal "eyJraWQ")
                           (fun _ _ _ _ => Throw (Error "Network Error"))
                           (fun _ _ => true))
             (LegacyPage.UpdateTask (JNum 42) "Completed")
             (Legacy.mkPage "call mum" (Legacy.mkTaskList "" [a_task])) [] eq_refl).
Defined.

(** ** The legacy forms *)

Ltac unfold_forms :=
  unfold LegacyPage.signUp, LegacyPage.signIn, LegacyPage.signOut,
    LegacyPage.checkAuthStatus, LegacyPage.updateUIAfterAuth, LegacyPage.call_page,
    Flow.call, Flow.finally, Flow.try_catch, Flow.bind, Flow.ret, Flow.get,
    Flow.modify, Flow.emit, Flow.ask in *;
  cbn [fst snd] in *.

(** X18. The legacy [signIn] never throws. A rejected sign-in writes the
    red message with the text of the rejection and nothing else: the
    sections, the list and the inputs are as before and the task API is
    not called. An accepted sign-in writes the green message, shows the
    task section in place of the forms, and then the page is what
    [fetchTasks] makes of it. *)
Theorem legacy_signIn_outcomes
        (out : LegacyPage.Outside) (d : LegacyPage.Document) (h : History) :
  let answer := LegacyPage.Auth_signIn out h (LegacyPage.signin_email d)
                                        (LegacyPage.signin_password d) in
  let call := inr (ev_Auth_signIn (LegacyPage.signin_email d)
                                  (LegacyPage.signin_password d) answer) in
  let r := LegacyPage.signIn out (d, h) in
  outcome r = Normal tt /\
  match answer with
  | Throw e =>
      final_state r
      = LegacyPage.with_signin_message
          (LegacyPage.mkMessage ("Error signing in: " ++ err_message e) "red") d /\
      history_since h r = [call; inl (console_error "Sign In Error:" e)]
  | Normal _ =>
      let loaded :=
        Legacy.fetchTasks (LegacyPage.env_after out (h ++ [call])%list)
                          (LegacyPage.page d, []) in
      final_state r
      = LegacyPage.with_page (state_of loaded)
          (LegacyPage.with_displays "none" "block"
             (LegacyPage.with_signin_message
                (LegacyPage.mkMessage "Sign In Success!" "green") d)) /\
      history_since h r = call :: map inl (trace_of loaded)
  end.
Proof.
  cbv zeta. unfold_forms.
  destruct (LegacyPage.Auth_signIn out h _ _) as [u|e]; cbn [fst snd].
  - cbn [LegacyPage.page LegacyPage.with_displays LegacyPage.with_signin_message].
    match goal with
    | |- context [Legacy.fetchTasks ?e ?w] =>
        pose proof (legacy_fetchTasks_normal e w) as Hn; unfold result_of in Hn;
        revert Hn; destruct (Legacy.fetchTasks e w) as [res [p' t']]
    end.
    cbn [fst snd]. intros ->. cbn [fst snd]. new_history.
    unfold outcome, final_state, state_of, trace_of. cbn. auto.
  - new_history. unfold outcome, final_state. cbn. auto.
Qed.

(** X19. The legacy [signOut] never throws. When the provider signs out,
    the blue message is written and the forms show in place of the task
    section, but the list and the description input keep their content:
    unlike the component, the page does not empty the list. When the
    provider rejects, the document is exactly as before. *)
Theorem legacy_signOut_outcomes
        (out : LegacyPage.Outside) (d : LegacyPage.Document) (h : History) :
  let answer := LegacyPage.Auth_signOut out h in
  let r := LegacyPage.signOut out (d, h) in
  outcome r = Normal tt /\
  LegacyPage.page (final_state r) = LegacyPage.page d /\
  final_state r
  = match answer with
    | Normal _ =>
        LegacyPage.with_displays "block" "none"
          (LegacyPage.with_signin_message (LegacyPage.mkMessage "Signed Out." "blue") d)
    | Throw _ => d
    end.
Proof.
  cbv zeta. unfold_forms.
  destruct (LegacyPage.Auth_signOut out h); cbn; auto.
Qed.

(** X20. [checkAuthStatus], run when the page has loaded, never throws and
    always leaves exactly one section showing: the task section, with the
    list refreshed, when there is a session; the forms, with no call to
    the task API, when there is none. *)
Theorem checkAuthStatus_outcomes
        (out : LegacyPage.Outside) (d : LegacyPage.Document) (h : History) :
  let session := Legacy.currentSession (LegacyPage.env_after out h) [] in
  let r := LegacyPage.checkAuthStatus out (d, h) in
  outcome r = Normal tt /\
  LegacyPage.one_section_shows (final_state r) /\
  match session with
  | Normal _ =>
      let h' := (h ++ [inl (ev_currentSession session)])%list in
      let loaded := Legacy.fetchTasks (LegacyPage.env_after out h')
                                      (LegacyPage.page d, []) in
      final_state r
      = LegacyPage.with_page (state_of loaded) (LegacyPage.with_displays "none" "block" d) /\
      history_since h r = inl (ev_currentSession session) :: map inl (trace_of loaded)
  | Throw _ =>
      final_state r = LegacyPage.with_displays "block" "none" d /\
      history_since h r = [inl (ev_currentSession session)]
  end.
Proof.
  cbv zeta. unfold LegacyPage.one_section_shows. unfold_forms. unfold ask. cbn [fst snd].
  destruct (Legacy.currentSession (LegacyPage.env_after out h) []) as [jwt|e];
    cbn [fst snd map app].
  - cbn [LegacyPage.page LegacyPage.with_displays LegacyPage.with_page].
    match goal with
    | |- context [Legacy.fetchTasks ?e ?w] =>
        pose proof (legacy_fetchTasks_normal e w) as Hn; unfold result_of in Hn;
        revert Hn; destruct (Legacy.fetchTasks e w) as [res [p' t']]
    end.
    cbn [fst snd]. intros ->. cbn [fst snd]. new_history.
    unfold outcome, final_state, state_of, trace_of. cbn. auto 8.
  - new_history. unfold outcome, final_state. cbn. auto 8.
Qed.


Lemma press_keeps_sections
      (out : LegacyPage.Outside) (a : LegacyPage.FormAction)
      (d : LegacyPage.Document) (h : History) :
  LegacyPage.one_section_shows d ->
  outcome (LegacyPage.press out a (d, h)) = Normal tt /\
  LegacyPage.one_section_shows (final_state (LegacyPage.press out a (d, h))).
Proof.
  intros Hd. unfold LegacyPage.one_section_shows in *.
  destruct a; cbn [LegacyPage.press]; unfold_forms.
  - destruct (LegacyPage.Auth_signUp out h _ _); cbn; auto.
  - destruct (LegacyPage.Auth_signIn out h _ _); cbn [fst snd]; [|cbn; auto].
    match goal with
    | |- context [Legacy.fetchTasks ?e ?w] =>
        pose proof (legacy_fetchTasks_normal e w) as Hn; unfold result_of in Hn;
        revert Hn; destruct (Legacy.fetchTasks e w) as [res [p' t']]
    end.
    cbn [fst snd]. intros ->. cbn. auto.
  - destruct (LegacyPage.Auth_signOut out h); cbn; auto.
Qed.

(** X22. On the legacy page, once exactly one of the two sections shows,
    as [checkAuthStatus] leaves it, it stays so through any sequence of
    sign-up, sign-in and sign-out, whatever the provider and the task API
    answer; and no handler of the sequence throws. *)
Theorem sections_stay_exclusive
        (out : LegacyPage.Outside) (l : list LegacyPage.FormAction)
        (d : LegacyPage.Document) (h : History) :
  LegacyPage.one_section_shows d ->
  outcome (LegacyPage.presses out l (d, h)) = Normal tt /\
  LegacyPage.one_section_shows (final_state (LegacyPage.presses out l (d, h))).
Proof.
  revert d h. induction l as [|a l IH]; intros d h Hd; [split; [reflexivity|exact Hd]|].
  cbn [LegacyPage.presses]. unfold Flow.bind.
  destruct (press_keeps_sections out a d h Hd) as [Ho Hs]. revert Ho Hs.
  destruct (LegacyPage.press out a (d, h)) as [res [d' h']].
  unfold outcome, final_state. cbn [fst snd]. intros -> Hs.
  apply (IH d' h' Hs).
Qed.

Lemma sections_stay_exclusive_witness :
  let out := fixed_outside (legacy_env true) (Normal tt) (Throw (Error "Incorrect username or password."))
                           (Normal tt) in
  LegacyPage.one_section_shows a_document /\
  LegacyPage.one_section_shows
    (final_state
       (LegacyPage.presses out
          [LegacyPage.PressSignOut; LegacyPage.PressSignIn; LegacyPage.PressSignUp]
          (a_document, []))).
Proof.
  assert (H : LegacyPage.one_section_shows a_document) by (left; split; reflexivity).
  cbv zeta. split; [exact H|].
  exact (proj2 (sections_stay_exclusive
                  (fixed_outside (legacy_env true) (Normal tt)
                     (Throw (Error "Incorrect username or password.")) (Normal tt))
                  [LegacyPage.PressSignOut; LegacyPage.PressSignIn; LegacyPage.PressSignUp]
                  a_document [] H)).
Defined.

(** X23. After the button Back to Sign In the form is no longer on the
    confirmation step and shows no message, while the typed code stays in
    its cell; the submit that follows starts with the sign-up on the
    sign-up form and with the sign-in on the sign-in form, never with a
    confirmation. *)
Theorem back_then_submit_never_confirms (p : Provider) (s : AppState) (h : History) :
  let r := back_then_submit p (s, h) in
  hd_error (provider_calls (history_since h r))
  = Some (if isSignUp s then CallSignUp else CallSignIn) /\
  final_state (call_handler p (fun _ => onClick_back_to_sign_in) (s, h))
  = with_error "" (with_needsConfirmation false s).
Proof.
  assert (Hback : call_handler p (fun _ => onClick_back_to_sign_in) (s, h)
                  = (Normal tt, (with_error "" (with_needsConfirmation false s), h))).
  { unfold call_handler, Flow.call, onClick_back_to_sign_in. unfold_handlers.
    cbn [map]. now rewrite app_nil_r. }
  cbv zeta. split; [|now rewrite Hback].
  unfold back_then_submit, Flow.bind. rewrite Hback.
  exact (submit_first_call p (with_error "" (with_needsConfirmation false s)) h).
Qed.
